(** * TaskTrackr: the task store and the reminder poller of [tasktrackr.py]

    A shallow embedding of [Task], [TaskManager] and the Python values that
    flow through them, followed by the properties of the store: loading and
    saving, the round trip through the persisted file, index-addressed
    removal and completion toggling, the reminder poll and the invariants of
    a task.

    Modelling conventions.
    - Text is [string], one [ascii] per character; [str.strip] and
      [str.lower] are modelled on the ASCII range.
    - The values [json.load] produces are the constructors of [pyval]
      (numbers are integers: the program only tests a number for zero).
    - The [datetime] library is an interface ([DatetimeLib]); what the proofs
      need from it is stated as laws ([DatetimeLaws]).
    - The file [tasks.json] is kept up to what [json.load] makes of it
      ([file_content]); [print] appends to [stdout].
    - Exceptions are values of [exn]; a computation that may raise returns a
      [result]. *)

From Stdlib Require Import ZArith Lia Ascii String.
From stdpp Require Import base option list strings relations.

Set Warnings "-register-all".

Local Open Scope string_scope.
Local Open Scope list_scope.
Local Open Scope Z_scope.

(** ** Exceptions and results *)

Inductive exn : Type :=
  | KeyError (key : string)
  | ValueError
  | TypeError
  | AttributeError
  | IndexError
  | OSError.

Inductive result (A : Type) : Type :=
  | Ok (a : A)
  | Raise (e : exn).
Arguments Ok {A} a.
Arguments Raise {A} e.

#[global] Instance result_ret : MRet result := fun _ a => Ok a.
#[global] Instance result_bind : MBind result := fun _ _ f m =>
  match m with
  | Ok a => f a
  | Raise e => Raise e
  end.
#[global] Instance result_fmap : FMap result := fun _ _ f m =>
  match m with
  | Ok a => Ok (f a)
  | Raise e => Raise e
  end.

(** ** Python values

    The objects [json.load] builds: [None], booleans, integers, strings,
    lists and dictionaries with string keys (kept in insertion order, looked
    up by first match). *)

Inductive pyval : Type :=
  | PNone
  | PBool (b : bool)
  | PInt (z : Z)
  | PStr (s : string)
  | PList (l : list pyval)
  | PDict (d : list (string * pyval)).

(** Truth value of an object, as [if x], [not x] and [bool(x)] compute it. *)
Definition truthy (v : pyval) : bool :=
  match v with
  | PNone => false
  | PBool b => b
  | PInt z => negb (z =? 0)
  | PStr s => negb (String.eqb s "")
  | PList l => match l with [] => false | _ => true end
  | PDict d => match d with [] => false | _ => true end
  end.

Fixpoint dict_lookup (key : string) (d : list (string * pyval)) : option pyval :=
  match d with
  | [] => None
  | (k, v) :: d' => if String.eqb k key then Some v else dict_lookup key d'
  end.

(** [data[key]] for a string key. *)
Definition getitem (data : pyval) (key : string) : result pyval :=
  match data with
  | PDict d =>
      match dict_lookup key d with
      | Some v => Ok v
      | None => Raise (KeyError key)
      end
  | _ => Raise TypeError
  end.

(** [data.get(key, default)]. *)
Definition py_get (data : pyval) (key : string) (default : pyval) : result pyval :=
  match data with
  | PDict d =>
      match dict_lookup key d with
      | Some v => Ok v
      | None => Ok default
      end
  | _ => Raise AttributeError
  end.

(** The items a [for] loop over [data] visits: the elements of a list, the
    keys of a dictionary, the characters of a string; other objects are not
    iterable. *)
Fixpoint chars (s : string) : list pyval :=
  match s with
  | EmptyString => []
  | String c s' => PStr (String c EmptyString) :: chars s'
  end.

Definition py_iter (data : pyval) : result (list pyval) :=
  match data with
  | PList l => Ok l
  | PDict d => Ok (map (fun kv => PStr (fst kv)) d)
  | PStr s => Ok (chars s)
  | _ => Raise TypeError
  end.

(** ** Strings: [str.strip] and [str.lower] *)

(** Whitespace as [str.isspace] sees it on the ASCII range: tab, line feed,
    vertical tab, form feed, carriage return, the four separators
    [\x1c]-[\x1f] and the space. *)
Definition isspace (c : ascii) : bool :=
  let n := N_of_ascii c in
  ((9 <=? n) && (n <=? 13) || (28 <=? n) && (n <=? 32))%N.

Fixpoint lstrip (s : string) : string :=
  match s with
  | EmptyString => EmptyString
  | String c s' => if isspace c then lstrip s' else s
  end.

Fixpoint rstrip (s : string) : string :=
  match s with
  | EmptyString => EmptyString
  | String c s' =>
      match rstrip s' with
      | EmptyString => if isspace c then EmptyString else String c EmptyString
      | r => String c r
      end
  end.

Definition strip (s : string) : string := lstrip (rstrip s).

Definition lower_char (c : ascii) : ascii :=
  let n := N_of_ascii c in
  if ((65 <=? n) && (n <=? 90))%N then ascii_of_N (n + 32) else c.

Fixpoint lower (s : string) : string :=
  match s with
  | EmptyString => EmptyString
  | String c s' => String (lower_char c) (lower s')
  end.

(** [x.strip()] and [x.lower()] on an arbitrary object: only [str] has the
    attribute. *)
Definition str_strip (x : pyval) : result string :=
  match x with
  | PStr s => Ok (strip s)
  | _ => Raise AttributeError
  end.

Definition str_lower (x : pyval) : result string :=
  match x with
  | PStr s => Ok (lower s)
  | _ => Raise AttributeError
  end.

(** ** Lists indexed by a Python integer *)

(** The position a subscript [l[index]] denotes: negative indices count from
    the end, anything outside the list is an [IndexError]. *)
Definition py_index (len : nat) (index : Z) : result nat :=
  let i := if index <? 0 then index + Z.of_nat len else index in
  if (0 <=? i) && (i <? Z.of_nat len) then Ok (Z.to_nat i) else Raise IndexError.

Definition list_getitem {A} (l : list A) (index : Z) : result A :=
  i ← py_index (length l) index;
  match l !! i with
  | Some x => Ok x
  | None => Raise IndexError
  end.

(** [del l[index]]. *)
Definition list_delitem {A} (l : list A) (index : Z) : result (list A) :=
  i ← py_index (length l) index;
  Ok (delete i l).

(** ** The datetime library *)

(** What the program uses of [datetime]: the type of timestamps,
    [isoformat], [fromisoformat] (on a string; [None] stands for
    [ValueError]) and the comparison [<=]. *)
Class DatetimeLib : Type := {
  datetime : Type;
  isoformat : datetime -> string;
  fromisoformat : string -> option datetime;
  dt_le : datetime -> datetime -> bool;
}.

(** [fromisoformat] inverts [isoformat], and [isoformat] never yields the
    empty string. *)
Class DatetimeLaws `{DatetimeLib} : Prop := {
  fromisoformat_isoformat : forall d, fromisoformat (isoformat d) = Some d;
  isoformat_nonempty : forall d, isoformat d <> "";
}.

(** [datetime.fromisoformat(x)]: a [TypeError] unless [x] is a string. *)
Definition py_fromisoformat `{DatetimeLib} (x : pyval) : result datetime :=
  match x with
  | PStr s =>
      match fromisoformat s with
      | Some d => Ok d
      | None => Raise ValueError
      end
  | _ => Raise TypeError
  end.

Section TaskTrackr.
Context `{DatetimeLib}.

(** ** class Task *)

Record Task : Type := {
  title : string;
  description : string;
  due_date : option datetime;
  priority : string;
  reminder : bool;
  reminder_time : option datetime;
  completed : pyval;
  created_at : datetime;
}.

Definition set_due_date (d : option datetime) (task : Task) : Task :=
  {| title := title task; description := description task; due_date := d;
     priority := priority task; reminder := reminder task;
     reminder_time := reminder_time task; completed := completed task;
     created_at := created_at task |}.

Definition set_reminder_time (d : option datetime) (task : Task) : Task :=
  {| title := title task; description := description task;
     due_date := due_date task; priority := priority task;
     reminder := reminder task; reminder_time := d;
     completed := completed task; created_at := created_at task |}.

Definition set_completed (c : pyval) (task : Task) : Task :=
  {| title := title task; description := description task;
     due_date := due_date task; priority := priority task;
     reminder := reminder task; reminder_time := reminder_time task;
     completed := c; created_at := created_at task |}.

Definition set_created_at (d : datetime) (task : Task) : Task :=
  {| title := title task; description := description task;
     due_date := due_date task; priority := priority task;
     reminder := reminder task; reminder_time := reminder_time task;
     completed := completed task; created_at := d |}.

Definition valid_priorities : list string := ["low"; "medium"; "high"].

(** [Task.__init__]; [now] is what [datetime.now()] returns.  The callers
    that leave out an argument get the defaults of the signature:
    [description=""], [due_date=None], [priority="medium"], [reminder=False],
    [reminder_time=None]. *)
Definition Task_init (now : datetime) (title description : pyval)
    (due_date : option datetime) (priority reminder : pyval)
    (reminder_time : option datetime) : result Task :=
  if negb (truthy title) then Raise ValueError else
  stripped ← str_strip title;
  if negb (truthy (PStr stripped)) then Raise ValueError else
  self_title ← str_strip title;
  self_description ← str_strip description;
  self_priority ← (if truthy priority then str_lower priority else Ok "medium");
  let self_priority :=
    if bool_decide (self_priority ∉ valid_priorities) then "medium"
    else self_priority in
  Ok {| title := self_title; description := self_description;
        due_date := due_date; priority := self_priority;
        reminder := truthy reminder; reminder_time := reminder_time;
        completed := PBool false; created_at := now |}.

(** [x.isoformat() if x else None]: a datetime object is always true. *)
Definition isoformat_or_None (x : option datetime) : pyval :=
  match x with
  | Some d => PStr (isoformat d)
  | None => PNone
  end.

Definition to_dict (self : Task) : pyval :=
  PDict [ ("title", PStr (title self));
          ("description", PStr (description self));
          ("due_date", isoformat_or_None (due_date self));
          ("priority", PStr (priority self));
          ("reminder", PBool (reminder self));
          ("reminder_time", isoformat_or_None (reminder_time self));
          ("completed", completed self);
          ("created_at", PStr (isoformat (created_at self))) ].

(** The body of the [try] of [Task.from_dict]. *)
Definition from_dict_try (now : datetime) (data : pyval) : result Task :=
  title ← getitem data "title";
  description ← py_get data "description" (PStr "");
  priority ← py_get data "priority" (PStr "medium");
  reminder ← py_get data "reminder" (PBool false);
  task ← Task_init now title description None priority reminder None;
  due ← py_get data "due_date" PNone;
  task ← (if truthy due then
            v ← getitem data "due_date";
            d ← py_fromisoformat v;
            Ok (set_due_date (Some d) task)
          else Ok task);
  rt ← py_get data "reminder_time" PNone;
  task ← (if truthy rt then
            v ← getitem data "reminder_time";
            d ← py_fromisoformat v;
            Ok (set_reminder_time (Some d) task)
          else Ok task);
  c ← py_get data "completed" (PBool false);
  let task := set_completed c task in
  v ← getitem data "created_at";
  d ← py_fromisoformat v;
  Ok (set_created_at d task).

(** ** Output *)

(** The lines [print] writes, one constructor per format string of the
    source; [REMINDER] stands for the block a due reminder prints (title,
    description, due date when there is one, priority). *)
Inductive message : Type :=
  | ErrorLoadingTask (e : exn)
  | ErrorInvalidJSON
  | ErrorLoadingTasks (e : exn)
  | ErrorSavingTasks (e : exn)
  | ErrorRemovingTask (e : exn)
  | ErrorUpdatingTask (e : exn)
  | REMINDER (title description : string) (due_date : option datetime)
             (priority : string).

(** [except (KeyError, ValueError)] *)
Definition caught (e : exn) : bool :=
  match e with
  | KeyError _ | ValueError => true
  | _ => false
  end.

(** [Task.from_dict]: [KeyError] and [ValueError] are caught, printed and
    turned into [None]; any other exception leaves the method. *)
Definition from_dict (now : datetime) (data : pyval)
    : result (option Task * list message) :=
  match from_dict_try now data with
  | Ok task => Ok (Some task, [])
  | Raise e =>
      if caught e then Ok (None, [ErrorLoadingTask e]) else Raise e
  end.

(** ** class TaskManager *)

(** The file [self.data_file] names, as [os.path.exists], [open] and
    [json.load] see it: absent; present but not readable as text; text that
    is not JSON ([json.JSONDecodeError]); text that is the JSON of [v]. *)
Inductive file_content : Type :=
  | Missing
  | Unreadable
  | NotJSON (text : string)
  | JSON (v : pyval).

(** A manager together with the part of the world it touches. *)
Record state : Type := {
  tasks : list Task;            (* self.tasks *)
  _running : bool;              (* self._running *)
  data_file : file_content;     (* the file at self.data_file *)
  writable : bool;              (* does open(self.data_file, "w") succeed *)
  stdout : list message;        (* what has been printed *)
}.

Definition set_tasks (l : list Task) (s : state) : state :=
  {| tasks := l; _running := _running s; data_file := data_file s;
     writable := writable s; stdout := stdout s |}.

Definition set_running (b : bool) (s : state) : state :=
  {| tasks := tasks s; _running := b; data_file := data_file s;
     writable := writable s; stdout := stdout s |}.

Definition write_file (v : pyval) (s : state) : state :=
  {| tasks := tasks s; _running := _running s; data_file := JSON v;
     writable := writable s; stdout := stdout s |}.

Definition print (m : list message) (s : state) : state :=
  {| tasks := tasks s; _running := _running s; data_file := data_file s;
     writable := writable s; stdout := stdout s ++ m |}.

(** [[task.to_dict() for task in self.tasks]] *)
Definition serialize (l : list Task) : pyval := PList (map to_dict l).

Definition save_tasks (s : state) : state :=
  if writable s then write_file (serialize (tasks s)) s
  else print [ErrorSavingTasks OSError] s.

(** The [for] loop of [load_tasks]: [acc] is [self.tasks], [out] what the
    loop has printed so far. *)
Fixpoint load_loop (now : datetime) (data : list pyval) (acc : list Task)
    (out : list message) : result (list Task) * list message :=
  match data with
  | [] => (Ok acc, out)
  | task_data :: rest =>
      match from_dict now task_data with
      | Ok (Some task, msgs) => load_loop now rest (acc ++ [task]) (out ++ msgs)
      | Ok (None, msgs) => load_loop now rest acc (out ++ msgs)
      | Raise e => (Raise e, out)
      end
  end.

Definition load_tasks (now : datetime) (s : state) : state :=
  match data_file s with
  | Missing => s
  | Unreadable => print [ErrorLoadingTasks OSError] (set_tasks [] s)
  | NotJSON _ => save_tasks (print [ErrorInvalidJSON] s)
  | JSON data =>
      match py_iter data with
      | Raise e => print [ErrorLoadingTasks e] (set_tasks [] s)
      | Ok items =>
          match load_loop now items [] [] with
          | (Ok l, out) => print out (set_tasks l s)
          | (Raise e, out) =>
              print (out ++ [ErrorLoadingTasks e]) (set_tasks [] s)
          end
      end
  end.

(** [TaskManager()] in a world where the file is [file].  [load_tasks] runs
    before [self._running] is assigned and does not read it. *)
Definition TaskManager_init (now : datetime) (file : file_content)
    (can_write : bool) : state :=
  set_running true
    (load_tasks now {| tasks := []; _running := false; data_file := file;
                       writable := can_write; stdout := [] |}).

(** [list.append] and [save_tasks] raise nothing, so the handler of
    [add_task] is never entered. *)
Definition add_task (task : Task) (s : state) : bool * state :=
  (true, save_tasks (set_tasks (tasks s ++ [task]) s)).

Definition remove_task (index : Z) (s : state) : bool * state :=
  if (0 <=? index) && (index <? Z.of_nat (length (tasks s))) then
    match list_delitem (tasks s) index with
    | Ok l => (true, save_tasks (set_tasks l s))
    | Raise e => (false, print [ErrorRemovingTask e] s)
    end
  else (false, s).

(** [self.tasks[index].completed = not self.tasks[index].completed].  The
    entries of the list are distinct objects ([load_tasks] builds each of
    them, the command loop constructs one for each [add_task]), so the
    assignment changes the entry at the index and no other. *)
Definition toggle_at (l : list Task) (index : Z) : result (list Task) :=
  task ← list_getitem l index;
  i ← py_index (length l) index;
  Ok (<[i := set_completed (PBool (negb (truthy (completed task)))) task]> l).

Definition toggle_task_completion (index : Z) (s : state) : bool * state :=
  if (0 <=? index) && (index <? Z.of_nat (length (tasks s))) then
    match toggle_at (tasks s) index with
    | Ok l => (true, save_tasks (set_tasks l s))
    | Raise e => (false, print [ErrorUpdatingTask e] s)
    end
  else (false, s).

Definition get_tasks (show_completed : bool) (s : state) : list Task :=
  if show_completed then tasks s
  else List.filter (fun task => negb (truthy (completed task))) (tasks s).

(** The condition of the [if] in [check_reminders]. *)
Definition reminder_due (now : datetime) (task : Task) : bool :=
  reminder task &&
  match reminder_time task with
  | None => false
  | Some at_time => negb (truthy (completed task)) && dt_le at_time now
  end.

Definition notification (task : Task) : message :=
  REMINDER (title task) (description task) (due_date task) (priority task).

(** The [for] loop of [check_reminders]: the tasks it notifies, in order. *)
Fixpoint notified (now : datetime) (l : list Task) : list Task :=
  match l with
  | [] => []
  | task :: rest =>
      if reminder_due now task then task :: notified now rest
      else notified now rest
  end.

Definition check_reminders (now : datetime) (s : state) : state :=
  if negb (_running s) then s
  else print (map notification (notified now (tasks s))) s.

Definition stop (s : state) : state := save_tasks (set_running false s).

(** One call of the program on the manager: the moves of the command loop,
    of the poller and of the shutdown path. *)
Inductive step : state -> state -> Prop :=
  | step_add now title description due priority reminder at_time task s :
      Task_init now title description due priority reminder at_time = Ok task ->
      step s (add_task task s).2
  | step_remove index s : step s (remove_task index s).2
  | step_toggle index s : step s (toggle_task_completion index s).2
  | step_load now s : step s (load_tasks now s)
  | step_save s : step s (save_tasks s)
  | step_check now s : step s (check_reminders now s)
  | step_stop s : step s (stop s).

(** ** Derived notions *)

(** The priority a task is to get from the text given for it, in the words
    of the specification: the text lowercased when that is one of the three
    valid values, ["medium"] otherwise and when no text is given. *)
Definition spec_priority (given : option string) : string :=
  match given with
  | Some p => if bool_decide (lower p ∈ valid_priorities) then lower p else "medium"
  | None => "medium"
  end.

(** The invariant of a task: title and description are stripped, the title
    is not empty and the priority is one of the three values. *)
Definition valid_task (task : Task) : bool :=
  String.eqb (strip (title task)) (title task) &&
  negb (String.eqb (title task) "") &&
  String.eqb (strip (description task)) (description task) &&
  bool_decide (priority task ∈ valid_priorities).

Definition title_ok (task : Task) : Prop := strip (title task) <> "".

(** A task with its completion flipped, as [toggle_task_completion] leaves
    it. *)
Definition toggled (task : Task) : Task :=
  set_completed (PBool (negb (truthy (completed task)))) task.

(** The two tasks agree on every field other than [completed]. *)
Definition same_but_completed (a b : Task) : Prop :=
  title a = title b /\ description a = description b /\
  due_date a = due_date b /\ priority a = priority b /\
  reminder a = reminder b /\ reminder_time a = reminder_time b /\
  created_at a = created_at b.

(** The fields [from_dict] reads with [data.get], each with the value it
    stands for when the record lacks it. *)
Definition optional_fields : list (string * pyval) :=
  [ ("description", PStr ""); ("priority", PStr "medium");
    ("reminder", PBool false); ("due_date", PNone);
    ("reminder_time", PNone); ("completed", PBool false) ].

End TaskTrackr.

(** ** A datetime library to compute with

    Naive timestamps to the second, each carried by its ISO text
    [YYYY-MM-DDTHH:MM:SS]; on this fixed-width form the order of time is the
    order of the texts. *)
Module NaiveISO.

Definition digit (c : ascii) : option N :=
  let n := N_of_ascii c in
  if ((48 <=? n) && (n <=? 57))%N then Some (n - 48)%N else None.

Fixpoint number (acc : N) (l : list ascii) : option N :=
  match l with
  | [] => Some acc
  | c :: l' =>
      match digit c with
      | Some d => number (10 * acc + d)%N l'
      | None => None
      end
  end.

Definition is_leap (y : N) : bool :=
  ((y mod 4 =? 0) && (negb (y mod 100 =? 0) || (y mod 400 =? 0)))%N.

Definition days_in_month (y m : N) : N :=
  if (m =? 2)%N then (if is_leap y then 29 else 28)%N
  else if ((m =? 4) || (m =? 6) || (m =? 9) || (m =? 11))%N then 30%N
  else 31%N.

Definition in_range (lo hi : N) (o : option N) : bool :=
  match o with
  | Some n => ((lo <=? n) && (n <=? hi))%N
  | None => false
  end.

Definition well_formed (s : string) : bool :=
  match list_ascii_of_string s with
  | [y1; y2; y3; y4; a; m1; m2; b; d1; d2; t; h1; h2; c; n1; n2; e; s1; s2] =>
      Ascii.eqb a "-" && Ascii.eqb b "-" && Ascii.eqb t "T" &&
      Ascii.eqb c ":" && Ascii.eqb e ":" &&
      match number 0 [y1; y2; y3; y4], number 0 [m1; m2] with
      | Some y, Some m =>
          (1 <=? y)%N && (1 <=? m)%N && (m <=? 12)%N &&
          in_range 1 (days_in_month y m) (number 0 [d1; d2])
      | _, _ => false
      end &&
      in_range 0 23 (number 0 [h1; h2]) &&
      in_range 0 59 (number 0 [n1; n2]) &&
      in_range 0 59 (number 0 [s1; s2])
  | _ => false
  end.

Definition t : Type := { s : string | Is_true (well_formed s) }.

Definition format (d : t) : string := `d.

Definition parse (s : string) : option t :=
  match decide (Is_true (well_formed s)) with
  | left ok => Some (s ↾ ok)
  | right _ => None
  end.

Definition le (d1 d2 : t) : bool := String.leb (`d1) (`d2).

End NaiveISO.

#[global] Instance naive_datetime : DatetimeLib := {|
  datetime := NaiveISO.t;
  isoformat := NaiveISO.format;
  fromisoformat := NaiveISO.parse;
  dt_le := NaiveISO.le;
|}.

(** Four timestamps for the examples. *)
Definition t0900 : @datetime naive_datetime := "2024-03-01T09:00:00" ↾ I.
Definition t1000 : @datetime naive_datetime := "2024-03-01T10:00:00" ↾ I.
Definition t1200 : @datetime naive_datetime := "2024-03-01T12:00:00" ↾ I.
Definition t1800 : @datetime naive_datetime := "2024-03-02T18:00:00" ↾ I.

Definition buy_milk : Task :=
  {| title := "Buy milk"; description := "2 litres"; due_date := Some t1800;
     priority := "high"; reminder := true; reminder_time := Some t1000;
     completed := PBool false; created_at := t0900 |}.

Definition call_bank : Task :=
  {| title := "Call the bank"; description := ""; due_date := None;
     priority := "medium"; reminder := false; reminder_time := None;
     completed := PBool true; created_at := t0900 |}.

Definition water_plants : Task :=
  {| title := "Water plants"; description := "balcony"; due_date := None;
     priority := "low"; reminder := true; reminder_time := Some t1800;
     completed := PBool false; created_at := t1000 |}.

(** A manager before [load_tasks] has run, in a world with the given file. *)
Definition fresh (file : file_content) (can_write : bool) : state :=
  {| tasks := []; _running := false; data_file := file;
     writable := can_write; stdout := [] |}.

(** A running manager holding [l], with the file in step with it. *)
Definition holding (l : list Task) : state :=
  {| tasks := l; _running := true; data_file := JSON (serialize l);
     writable := true; stdout := [] |}.

(** A record without a title between two valid ones. *)
Definition untitled : pyval := PDict [("description", PStr "no title")].


(** * The command loop

    [get_task_input], [print_menu] and the [while] loop of [main], on a
    console: the lines still to be read from the standard input and the
    lines printed so far.  [input] at the end of the input raises
    [EOFError].  The reminder thread and the signal handlers of [main] are
    not part of this model. *)

(** What the command loop uses of the libraries beyond [DatetimeLib]:
    [datetime.strptime(text, "%Y-%m-%d %H:%M")] and [int(text)] ([None]
    stands for [ValueError]) and the comparison [<] of timestamps ([a > b]
    is [b < a]). *)
Class ConsoleLib `{DatetimeLib} : Type := {
  strptime : string -> option datetime;
  dt_lt : datetime -> datetime -> bool;
  py_int : string -> option Z;
}.

(** What a call may raise: [EOFError], or one of the exceptions of [exn]. *)
Inductive raised : Type :=
  | EOFError
  | Exception (e : exn).

Inductive outcome (A : Type) : Type :=
  | Returns (a : A)
  | Raises (e : raised).
Arguments Returns {A} a.
Arguments Raises {A} e.

Section CommandLoop.
Context `{DatetimeLib} `{!ConsoleLib}.

(** The lines of the console: a prompt of [input], one constructor for each
    message of the command loop, one for each field [main] shows of a task,
    and the lines the manager prints. *)
Inductive line : Type :=
  | Prompt (text : string)
  | MenuLine (text : string)
  | TitleCannotBeEmpty
  | WarningDueDatePast
  | InvalidDateFormat
  | InvalidPriority
  | WarningReminderPast
  | WarningReminderAfterDue
  | TaskAdded
  | ErrorAddingTask (e : raised)
  | NoTasksFound
  | YourTasks
  | TaskHeader (done : bool) (number : Z) (title : string)
  | TaskDescription (text : string)
  | TaskDue (d : datetime)
  | TaskPriority (p : string)
  | TaskReminder (d : datetime)
  | NoTasksToUpdate
  | TaskStatusUpdated
  | NoTasksToDelete
  | TaskDeleted
  | InvalidTaskNumber
  | PleaseEnterValidNumber
  | Goodbye
  | InvalidChoice
  | AnErrorOccurred (e : raised)
  | PleaseTryAgain
  | Printed (m : message).

Record console : Type := {
  manager : state;              (* task_manager *)
  stdin : list string;          (* the lines still to be read *)
  screen : list line;           (* the lines printed so far *)
}.

(** A computation on the console that returns or raises. *)
Definition io (A : Type) : Type := console -> outcome A * console.

#[global] Instance io_ret : MRet io := fun _ a w => (Returns a, w).
#[global] Instance io_bind : MBind io := fun _ _ f m w =>
  match m w with
  | (Returns a, w') => f a w'
  | (Raises e, w') => (Raises e, w')
  end.

Definition raise {A} (e : raised) : io A := fun w => (Raises e, w).

(** [try: body except ...: handler] *)
Definition try_except {A} (body : io A) (handler : raised -> io A) : io A :=
  fun w =>
    match body w with
    | (Returns a, w') => (Returns a, w')
    | (Raises e, w') => handler e w'
    end.

(** A call that returns a [result], with its exception raised. *)
Definition eval {A} (r : result A) : io A :=
  match r with
  | Ok a => mret a
  | Raise e => raise (Exception e)
  end.

(** [print] *)
Definition say (l : list line) : io unit := fun w =>
  (Returns (), {| manager := manager w; stdin := stdin w;
                  screen := screen w ++ l |}).

(** [input(prompt)] *)
Definition input (prompt : string) : io string := fun w =>
  match stdin w with
  | [] =>
      (Raises EOFError, {| manager := manager w; stdin := [];
                           screen := screen w ++ [Prompt prompt] |})
  | entered :: rest =>
      (Returns entered, {| manager := manager w; stdin := rest;
                           screen := screen w ++ [Prompt prompt] |})
  end.

(** A method of the manager; what it prints appears on the screen. *)
Definition call {A} (method : state -> A * state) : io A := fun w =>
  let s' := (method (manager w)).2 in
  (Returns (method (manager w)).1,
   {| manager := s'; stdin := stdin w;
      screen := screen w
                ++ map Printed (drop (length (stdout (manager w))) (stdout s')) |}).

(** A look at the manager that changes nothing. *)
Definition ask {A} (query : state -> A) : io A := fun w =>
  (Returns (query (manager w)), w).

(** A loop that reads lines until one is accepted, as a function of the
    lines to read and the lines printed. *)
Definition reads (A : Type) : Type :=
  list string -> list line -> outcome A * list string * list line.

Definition run_reads {A} (loop : reads A) : io A := fun w =>
  let r := loop (stdin w) (screen w) in
  (r.1.1, {| manager := manager w; stdin := r.1.2; screen := r.2 |}).

(** ** get_task_input *)

Definition title_prompt : string := "Enter task title: ".
Definition description_prompt : string := "Enter task description (optional): ".
Definition due_date_prompt : string :=
  "Enter due date (YYYY-MM-DD HH:MM) or press Enter to skip: ".
Definition priority_prompt : string :=
  "Enter priority (low/medium/high) [default: medium]: ".
Definition reminder_prompt : string := "Set reminder? (y/n) [default: n]: ".
Definition reminder_time_prompt : string :=
  "Enter reminder time (YYYY-MM-DD HH:MM): ".

(** The first loop: until the stripped line is not empty. *)
Fixpoint read_title (lines : list string) (out : list line)
    : outcome string * list string * list line :=
  match lines with
  | [] => (Raises EOFError, [], out ++ [Prompt title_prompt])
  | entered :: rest =>
      let title := strip entered in
      if truthy (PStr title) then
        (Returns title, rest, out ++ [Prompt title_prompt])
      else
        read_title rest (out ++ [Prompt title_prompt; TitleCannotBeEmpty])
  end.

(** The second loop: an empty line skips the due date, a line [strptime]
    rejects is asked again. *)
Fixpoint read_due_date (now : datetime) (lines : list string) (out : list line)
    : outcome (option datetime) * list string * list line :=
  match lines with
  | [] => (Raises EOFError, [], out ++ [Prompt due_date_prompt])
  | entered :: rest =>
      let due_date_str := strip entered in
      if negb (truthy (PStr due_date_str)) then
        (Returns None, rest, out ++ [Prompt due_date_prompt])
      else
        match strptime due_date_str with
        | Some due_date =>
            (Returns (Some due_date), rest,
             out ++ [Prompt due_date_prompt]
                 ++ (if dt_lt due_date now then [WarningDueDatePast] else []))
        | None =>
            read_due_date now rest
              (out ++ [Prompt due_date_prompt; InvalidDateFormat])
        end
  end.

(** The third loop: an empty line stands for ["medium"]. *)
Fixpoint read_priority (lines : list string) (out : list line)
    : outcome string * list string * list line :=
  match lines with
  | [] => (Raises EOFError, [], out ++ [Prompt priority_prompt])
  | entered :: rest =>
      let priority := strip (lower entered) in
      if negb (truthy (PStr priority))
         || bool_decide (priority ∈ valid_priorities) then
        (Returns (if truthy (PStr priority) then priority else "medium"),
         rest, out ++ [Prompt priority_prompt])
      else
        read_priority rest (out ++ [Prompt priority_prompt; InvalidPriority])
  end.

(** The fourth loop, entered when a reminder is wanted: until [strptime]
    accepts the line. *)
Fixpoint read_reminder_time (now : datetime) (due_date : option datetime)
    (lines : list string) (out : list line)
    : outcome (option datetime) * list string * list line :=
  match lines with
  | [] => (Raises EOFError, [], out ++ [Prompt reminder_time_prompt])
  | entered :: rest =>
      let reminder_str := strip entered in
      match strptime reminder_str with
      | Some reminder_time =>
          (Returns (Some reminder_time), rest,
           out ++ [Prompt reminder_time_prompt]
               ++ (if dt_lt reminder_time now then [WarningReminderPast]
                   else [])
               ++ (match due_date with
                   | Some due =>
                       if dt_lt due reminder_time
                       then [WarningReminderAfterDue] else []
                   | None => []
                   end))
      | None =>
          read_reminder_time now due_date rest
            (out ++ [Prompt reminder_time_prompt; InvalidDateFormat])
      end
  end.

Definition get_task_input (now : datetime) : io Task :=
  title ← run_reads read_title;
  entered ← input description_prompt;
  let description := strip entered in
  due_date ← run_reads (read_due_date now);
  priority ← run_reads read_priority;
  entered ← input reminder_prompt;
  let reminder := String.eqb (strip (lower entered)) "y" in
  reminder_time ← (if reminder
                   then run_reads (read_reminder_time now due_date)
                   else mret None);
  eval (Task_init now (PStr title) (PStr description) due_date
          (PStr priority) (PBool reminder) reminder_time).

(** ** main *)

Definition print_menu : io unit :=
  say [ MenuLine "=== TaskTrackr ==="; MenuLine "1. Add Task";
        MenuLine "2. View Tasks";
        MenuLine "3. Mark Task as Complete/Incomplete";
        MenuLine "4. Delete Task"; MenuLine "5. Exit";
        MenuLine "==================" ].

(** What choice 2 prints for the task at position [i]. *)
Definition show_task (i : nat) (task : Task) : list line :=
  [TaskHeader (truthy (completed task)) (Z.of_nat i + 1) (title task)]
  ++ (if truthy (PStr (description task))
      then [TaskDescription (description task)] else [])
  ++ (match due_date task with Some d => [TaskDue d] | None => [] end)
  ++ [TaskPriority (priority task)]
  ++ (if reminder task
      then match reminder_time task with
           | Some d => [TaskReminder d]
           | None => []
           end
      else []).

(** [for i, task in enumerate(tasks)], counting from [i]. *)
Fixpoint show_tasks (i : nat) (l : list Task) : list line :=
  match l with
  | [] => []
  | task :: rest => show_task i task ++ show_tasks (S i) rest
  end.

(** [int(text)] *)
Definition int (text : string) : io Z :=
  eval (match py_int text with
        | Some n => Ok n
        | None => Raise ValueError
        end).

(** [except ValueError] *)
Definition except_ValueError (handler : io unit) (e : raised) : io unit :=
  match e with
  | Exception ValueError => handler
  | _ => raise e
  end.

Definition choice_1 (now : datetime) : io unit :=
  try_except
    (task ← get_task_input now;
     added ← call (add_task task);
     if added : bool then say [TaskAdded] else mret tt)
    (fun e => say [ErrorAddingTask e]).

Definition choice_2 : io unit :=
  tasks ← ask (get_tasks true);
  match tasks with
  | [] => say [NoTasksFound]
  | _ => say (YourTasks :: show_tasks 0 tasks)
  end.

Definition choice_3 : io unit :=
  tasks ← ask (get_tasks true);
  match tasks with
  | [] => say [NoTasksToUpdate]
  | _ =>
      try_except
        (entered ← input "Enter task number to toggle completion: ";
         number ← int entered;
         let index := number - 1 in
         updated ← call (toggle_task_completion index);
         if updated : bool then say [TaskStatusUpdated]
         else say [InvalidTaskNumber])
        (except_ValueError (say [PleaseEnterValidNumber]))
  end.

Definition choice_4 : io unit :=
  tasks ← ask (get_tasks true);
  match tasks with
  | [] => say [NoTasksToDelete]
  | _ =>
      try_except
        (entered ← input "Enter task number to delete: ";
         number ← int entered;
         let index := number - 1 in
         removed ← call (remove_task index);
         if removed : bool then say [TaskDeleted]
         else say [InvalidTaskNumber])
        (except_ValueError (say [PleaseEnterValidNumber]))
  end.

(** One turn of the [while True] loop of [main]; the result says whether
    the loop is left ([break]). *)
Definition command (now : datetime) : io bool :=
  try_except
    (_ ← print_menu;
     entered ← input "Enter your choice (1-5): ";
     let choice := strip entered in
     if String.eqb choice "1" then _ ← choice_1 now; mret false
     else if String.eqb choice "2" then _ ← choice_2; mret false
     else if String.eqb choice "3" then _ ← choice_3; mret false
     else if String.eqb choice "4" then _ ← choice_4; mret false
     else if String.eqb choice "5" then
       _ ← say [Goodbye];
       _ ← call (fun s => ((), stop s));
       mret true
     else _ ← say [InvalidChoice]; mret false)
    (fun e => _ ← say [AnErrorOccurred e; PleaseTryAgain]; mret false).

(** Where the loop stands after some turns. *)
Inductive status : Type :=
  | Looping
  | Left
  | Failed (e : raised).

(** At most [fuel] turns of the loop; the turn numbered [k] reads the time
    [clock k]. *)
Fixpoint main_loop (clock : nat -> datetime) (k fuel : nat) (w : console)
    : status * console :=
  match fuel with
  | O => (Looping, w)
  | S fuel' =>
      match command (clock k) w with
      | (Returns true, w') => (Left, w')
      | (Returns false, w') => main_loop clock (S k) fuel' w'
      | (Raises e, w') => (Failed e, w')
      end
  end.

(** The console of a program started on the given file and input: the
    manager is constructed, then the loop runs. *)
Definition start (now : datetime) (file : file_content) (can_write : bool)
    (lines : list string) : console :=
  {| manager := TaskManager_init now file can_write; stdin := lines;
     screen := map Printed (stdout (TaskManager_init now file can_write)) |}.

(** ** Derived notions *)

(** [loop] returns a value that satisfies [P] and what is left of the
    lines, or raises [EOFError] with no line left. *)
Definition reads_only {A} (P : A -> Prop) (loop : reads A) : Prop :=
  forall lines out,
    match loop lines out with
    | (Returns a, rest, _) => P a /\ rest `suffix_of` lines
    | (Raises e, rest, _) => e = EOFError /\ rest = []
    end.

(** The same of a computation on the console, which moreover leaves the
    manager as it is. *)
Definition only_reads {A} (P : A -> Prop) (m : io A) : Prop :=
  forall w,
    match m w with
    | (Returns a, w') =>
        P a /\ manager w' = manager w /\ stdin w' `suffix_of` stdin w
    | (Raises e, w') =>
        e = EOFError /\ manager w' = manager w /\ stdin w' = []
    end.

(** What [get_task_input] returns, when it returns. *)
Definition prompted (now : datetime) (task : Task) : Prop :=
  (exists title description due priority reminder at_time,
     Task_init now title description due priority reminder at_time = Ok task) /\
  completed task = PBool false /\
  created_at task = now /\
  (reminder task = true <-> is_Some (reminder_time task)).

(** The number and the title of a header line. *)
Definition header (l : line) : option (Z * string) :=
  match l with
  | TaskHeader _ number title => Some (number, title)
  | _ => None
  end.

(** The console of a turn once the menu is printed and the choice read. *)
Definition after_choice (w : console) (rest : list string) : console :=
  {| manager := manager w; stdin := rest;
     screen := (screen w
                ++ [ MenuLine "=== TaskTrackr ==="; MenuLine "1. Add Task";
                     MenuLine "2. View Tasks";
                     MenuLine "3. Mark Task as Complete/Incomplete";
                     MenuLine "4. Delete Task"; MenuLine "5. Exit";
                     MenuLine "==================" ])
               ++ [Prompt "Enter your choice (1-5): "] |}.

(** The lines of a turn of the loop that finds the input at its end. *)
Definition turn_at_end_of_input : list line :=
  [ MenuLine "=== TaskTrackr ==="; MenuLine "1. Add Task";
    MenuLine "2. View Tasks";
    MenuLine "3. Mark Task as Complete/Incomplete";
    MenuLine "4. Delete Task"; MenuLine "5. Exit";
    MenuLine "=================="; Prompt "Enter your choice (1-5): ";
    AnErrorOccurred EOFError; PleaseTryAgain ].

End CommandLoop.

(** ** The libraries of the command loop, to compute with *)
Module NaiveConsole.

(** [YYYY-MM-DD HH:MM], read as the timestamp at second 0. *)
Definition strptime (text : string) : option NaiveISO.t :=
  if Nat.eqb (String.length text) 16
     && match String.get 10 text with
        | Some c => Ascii.eqb c " "
        | None => false
        end
  then NaiveISO.parse
         (String.append (String.substring 0 10 text)
            (String.append "T"
               (String.append (String.substring 11 5 text) ":00")))
  else None.

Definition lt (d1 d2 : NaiveISO.t) : bool := String.ltb (`d1) (`d2).

(** Decimal digits with single underscores between them. *)
Fixpoint digits (acc : Z) (after_digit : bool) (text : string) : option Z :=
  match text with
  | EmptyString => if after_digit then Some acc else None
  | String c rest =>
      match NaiveISO.digit c with
      | Some d => digits (10 * acc + Z.of_N d) true rest
      | None =>
          if Ascii.eqb c "_" && after_digit then digits acc false rest
          else None
      end
  end.

(** An optional sign and digits, with whitespace around. *)
Definition int (text : string) : option Z :=
  match strip text with
  | String "+" rest => digits 0 false rest
  | String "-" rest => Z.opp <$> digits 0 false rest
  | rest => digits 0 false rest
  end.

End NaiveConsole.

#[global] Instance naive_console : ConsoleLib := {|
  strptime := NaiveConsole.strptime;
  dt_lt := NaiveConsole.lt;
  py_int := NaiveConsole.int;
|}.

(** A console on a manager, with lines to read and a clear screen. *)
Definition at_console (s : state) (lines : list string) : console :=
  {| manager := s; stdin := lines; screen := [] |}.

(** * Properties *)

(** ** The library of the examples *)

Example parse_t0900 : NaiveISO.parse "2024-03-01T09:00:00" = Some t0900.
Proof. reflexivity. Qed.
Example parse_feb30 : NaiveISO.parse "2023-02-30T09:00:00" = None.
Proof. reflexivity. Qed.
Example le_0900_1000 : NaiveISO.le t0900 t1000 = true /\ NaiveISO.le t1800 t1200 = false.
Proof. split; reflexivity. Qed.

(** ** The model at work *)

Example strip_both_ends : strip "  Buy milk	 " = "Buy milk".
Proof. reflexivity. Qed.

Example strip_blank : strip " 	  " = "".
Proof. reflexivity. Qed.

Example lower_mixed : lower "HiGh" = "high".
Proof. reflexivity. Qed.

(** Construction: from text, with a title that is not text, with a priority
    that is a number, with no priority. *)
Example Task_init_strips :
  Task_init t0900 (PStr " Buy milk ") (PStr " 2 litres") (Some t1800)
    (PStr "HIGH") (PBool true) (Some t1000) = Ok buy_milk.
Proof. reflexivity. Qed.

Example Task_init_numeric_title :
  Task_init t0900 (PInt 5) (PStr "") None (PStr "low") (PBool false) None
  = Raise AttributeError.
Proof. reflexivity. Qed.

Example Task_init_numeric_priority :
  Task_init t0900 (PStr "a") (PStr "") None (PInt 3) (PBool false) None
  = Raise AttributeError.
Proof. reflexivity. Qed.

Example Task_init_no_priority :
  priority <$> Task_init t0900 (PStr "a") (PStr "") None PNone (PBool false) None
  = Ok "medium".
Proof. reflexivity. Qed.

(** Deserialization: what [from_dict] catches and what it lets through. *)
Example from_dict_round_trip :
  from_dict t1200 (to_dict water_plants) = Ok (Some water_plants, []).
Proof. reflexivity. Qed.

Example from_dict_null_title :
  from_dict t1200
    (PDict [("title", PNone); ("created_at", PStr "2024-03-01T09:00:00")])
  = Ok (None, [ErrorLoadingTask ValueError]).
Proof. reflexivity. Qed.

Example from_dict_bad_due_date :
  from_dict t1200
    (PDict [("title", PStr "a"); ("due_date", PStr "tomorrow");
            ("created_at", PStr "2024-03-01T09:00:00")])
  = Ok (None, [ErrorLoadingTask ValueError]).
Proof. reflexivity. Qed.

Example from_dict_numeric_due_date :
  from_dict t1200
    (PDict [("title", PStr "a"); ("due_date", PInt 7);
            ("created_at", PStr "2024-03-01T09:00:00")])
  = Raise TypeError.
Proof. reflexivity. Qed.

Example from_dict_not_a_record : from_dict t1200 (PInt 3) = Raise TypeError.
Proof. reflexivity. Qed.

Example from_dict_keeps_completed :
  completed <$> from_dict_try t1200
    (PDict [("title", PStr "a"); ("completed", PStr "yes");
            ("created_at", PStr "2024-03-01T09:00:00")])
  = Ok (PStr "yes").
Proof. reflexivity. Qed.

(** Loading: a missing file, an object in place of the list. *)
Example load_tasks_missing_file :
  load_tasks t1200 (fresh Missing true) = fresh Missing true.
Proof. reflexivity. Qed.

Example load_tasks_object :
  load_tasks t1200 (fresh (JSON (to_dict buy_milk)) true)
  = print [ErrorLoadingTasks TypeError] (fresh (JSON (to_dict buy_milk)) true).
Proof. reflexivity. Qed.

(** The store: negative indices are refused, [not] makes a boolean of
    whatever [completed] holds, a refused write is printed. *)
Example toggled_twice_text :
  completed (toggled (toggled (set_completed (PStr "yes") buy_milk)))
  = PBool true.
Proof. reflexivity. Qed.

Example toggle_task_completion_negative :
  toggle_task_completion (-1) (holding [buy_milk])
  = (false, holding [buy_milk]).
Proof. reflexivity. Qed.

Example get_tasks_incomplete :
  get_tasks false (holding [buy_milk; call_bank; water_plants])
  = [buy_milk; water_plants].
Proof. reflexivity. Qed.

Example add_task_refused_write :
  add_task call_bank (fresh Missing false)
  = (true, {| tasks := [call_bank]; _running := false; data_file := Missing;
              writable := false; stdout := [ErrorSavingTasks OSError] |}).
Proof. reflexivity. Qed.

Example check_reminders_after_stop :
  stdout (check_reminders t1200 (stop (holding [buy_milk]))) = [].
Proof. reflexivity. Qed.

(** ** Strings *)

Lemma lstrip_idem s : lstrip (lstrip s) = lstrip s.
Proof.
  induction s as [|c s IH]; simpl; [done|].
  destruct (isspace c) eqn:Hc; [done|]. simpl. by rewrite Hc.
Qed.

Lemma rstrip_idem s : rstrip (rstrip s) = rstrip s.
Proof.
  induction s as [|c s IH]; simpl; [done|].
  destruct (rstrip s) as [|c' r] eqn:Hr.
  - destruct (isspace c) eqn:Hc; simpl; [done|]. by rewrite Hc.
  - simpl in *. by rewrite IH.
Qed.

(** Stripping on the left keeps a string free of trailing whitespace. *)
Lemma rstrip_lstrip_fixed s : rstrip s = s -> rstrip (lstrip s) = lstrip s.
Proof.
  induction s as [|c s IH]; simpl; [done|].
  destruct (isspace c) eqn:Hc.
  - destruct (rstrip s) as [|c' r] eqn:Hr; [done|].
    intros [= <-]. by apply IH.
  - intros Hs. simpl. by rewrite Hc.
Qed.

Lemma strip_idem s : strip (strip s) = strip s.
Proof.
  unfold strip.
  rewrite (rstrip_lstrip_fixed (rstrip s)) by apply rstrip_idem.
  apply lstrip_idem.
Qed.

Lemma lower_valid p : p ∈ valid_priorities -> lower p = p.
Proof.
  unfold valid_priorities. rewrite !elem_of_cons, elem_of_nil.
  intros [->|[->|[->|[]]]]; reflexivity.
Qed.

Lemma truthy_PStr s : truthy (PStr s) = true <-> s <> "".
Proof.
  simpl. destruct (String.eqb_spec s ""); split; intros; done.
Qed.

Section Construction.
Context `{DatetimeLib}.

Lemma valid_task_spec task :
  valid_task task = true <->
  strip (title task) = title task /\ title task <> "" /\
  strip (description task) = description task /\
  priority task ∈ valid_priorities.
Proof.
  unfold valid_task. rewrite !andb_true_iff, negb_true_iff, bool_decide_eq_true.
  rewrite !String.eqb_eq, String.eqb_neq. tauto.
Qed.

Lemma valid_task_title_ok task : valid_task task = true -> title_ok task.
Proof.
  rewrite valid_task_spec. unfold title_ok. intros (-> & ? & _). done.
Qed.

(** The priority [Task.__init__] stores. *)
Lemma stored_priority_valid (p : string) :
  (if bool_decide (p ∉ valid_priorities) then "medium" else p) ∈ valid_priorities.
Proof.
  case_bool_decide as Hp.
  - unfold valid_priorities. rewrite !elem_of_cons. auto.
  - exact Hp.
Qed.

(** What a successful construction has received and what it has built. *)
Lemma Task_init_Ok now ti de du pr re rt task :
  Task_init now ti de du pr re rt = Ok task ->
  exists s d p,
    ti = PStr s /\ de = PStr d /\ strip s <> "" /\
    (if truthy pr then str_lower pr else Ok "medium") = Ok p /\
    task = {| title := strip s; description := strip d; due_date := du;
              priority := if bool_decide (p ∉ valid_priorities) then "medium" else p;
              reminder := truthy re; reminder_time := rt;
              completed := PBool false; created_at := now |}.
Proof.
  unfold Task_init. destruct (truthy ti) eqn:Hti; simpl; [|done].
  destruct ti as [| | |s| |]; simpl; try done.
  destruct (String.eqb_spec (strip s) ""); simpl; [done|].
  destruct de as [| | |d| |]; simpl; try done.
  destruct (if truthy pr then str_lower pr else Ok "medium") as [p|] eqn:Hp;
    simpl; [|done].
  intros [= <-]. by exists s, d, p.
Qed.

(** Construction from text succeeds exactly when the title is not blank. *)
Lemma Task_init_text now s d du (p : option string) re rt :
  strip s <> "" ->
  Task_init now (PStr s) (PStr d) du (from_option PStr PNone p) re rt =
  Ok {| title := strip s; description := strip d; due_date := du;
        priority := spec_priority p; reminder := truthy re;
        reminder_time := rt; completed := PBool false; created_at := now |}.
Proof.
  intros Hs. unfold Task_init.
  assert (truthy (PStr s) = true) as ->.
  { apply truthy_PStr. intros ->. by apply Hs. }
  simpl. destruct (String.eqb_spec (strip s) ""); [done|]. simpl.
  destruct p as [p|]; simpl.
  - destruct (String.eqb_spec p "") as [->|Hp]; simpl; [done|].
    repeat f_equal. repeat case_bool_decide; done.
  - done.
Qed.

Lemma Task_init_blank now s de du pr re rt :
  strip s = "" -> Task_init now (PStr s) de du pr re rt = Raise ValueError.
Proof.
  intros Hs. unfold Task_init.
  destruct (truthy (PStr s)); simpl; [|done]. by rewrite Hs.
Qed.

Lemma Task_init_valid now ti de du pr re rt task :
  Task_init now ti de du pr re rt = Ok task -> valid_task task = true.
Proof.
  intros (s & d & p & -> & -> & Hs & Hp & ->)%Task_init_Ok.
  apply valid_task_spec; simpl.
  split_and!; [apply strip_idem|done|apply strip_idem|apply stored_priority_valid].
Qed.

End Construction.

(** ** Deserialization *)

Lemma bind_Ok {A B} (m : result A) (f : A -> result B) b :
  (x ← m; f x) = Ok b -> exists a, m = Ok a /\ f a = Ok b.
Proof. destruct m as [a|e]; simpl; [eauto|done]. Qed.

Lemma dict_lookup_app key d d' :
  dict_lookup key (d ++ d') =
  match dict_lookup key d with
  | Some v => Some v
  | None => dict_lookup key d'
  end.
Proof.
  induction d as [|[k v] d IH]; simpl; [done|].
  by destruct (String.eqb k key).
Qed.

Section Deserialization.
Context `{DatetimeLib}.

Lemma valid_task_set_due_date d task :
  valid_task (set_due_date d task) = valid_task task.
Proof. done. Qed.

Lemma valid_task_set_reminder_time d task :
  valid_task (set_reminder_time d task) = valid_task task.
Proof. done. Qed.

Lemma valid_task_set_completed c task :
  valid_task (set_completed c task) = valid_task task.
Proof. done. Qed.

Lemma valid_task_set_created_at d task :
  valid_task (set_created_at d task) = valid_task task.
Proof. done. Qed.

(** Every task [from_dict] builds satisfies the invariant. *)
Lemma from_dict_try_valid now data task :
  from_dict_try now data = Ok task -> valid_task task = true.
Proof.
  unfold from_dict_try.
  intros (ti & _ & Hk)%bind_Ok. apply bind_Ok in Hk as (de & _ & Hk).
  apply bind_Ok in Hk as (pr & _ & Hk). apply bind_Ok in Hk as (re & _ & Hk).
  apply bind_Ok in Hk as (t0 & Ht0%Task_init_valid & Hk).
  apply bind_Ok in Hk as (due & _ & Hk).
  apply bind_Ok in Hk as (t1 & Ht1 & Hk).
  apply bind_Ok in Hk as (rt & _ & Hk).
  apply bind_Ok in Hk as (t2 & Ht2 & Hk).
  apply bind_Ok in Hk as (c & _ & Hk).
  apply bind_Ok in Hk as (v & _ & Hk). apply bind_Ok in Hk as (d & _ & Hk).
  injection Hk as <-.
  rewrite valid_task_set_created_at, valid_task_set_completed.
  assert (valid_task t1 = true) as Hv1.
  { destruct (truthy due); [|by injection Ht1 as <-].
    apply bind_Ok in Ht1 as (? & _ & Ht1). apply bind_Ok in Ht1 as (? & _ & Ht1).
    injection Ht1 as <-. by rewrite valid_task_set_due_date. }
  destruct (truthy rt); [|by injection Ht2 as <-].
  apply bind_Ok in Ht2 as (? & _ & Ht2). apply bind_Ok in Ht2 as (? & _ & Ht2).
  injection Ht2 as <-. by rewrite valid_task_set_reminder_time.
Qed.

Lemma from_dict_Some now data task msgs :
  from_dict now data = Ok (Some task, msgs) ->
  from_dict_try now data = Ok task /\ msgs = [].
Proof.
  unfold from_dict. destruct (from_dict_try now data) as [t|e];
    [by intros [= <- <-]|].
  by destruct (caught e).
Qed.

(** [from_dict] undoes [to_dict] on every task that satisfies the
    invariant. *)
Lemma from_dict_try_to_dict `{!DatetimeLaws} now task :
  valid_task task = true -> from_dict_try now (to_dict task) = Ok task.
Proof.
  intros (Ht & Hne & Hd & Hp)%valid_task_spec.
  unfold from_dict_try, to_dict. simpl.
  pose proof (Task_init_text now (title task) (description task) None
                (Some (priority task)) (PBool (reminder task)) None) as Hinit.
  simpl in Hinit. rewrite Hinit by (by rewrite Ht). clear Hinit. simpl.
  rewrite (lower_valid _ Hp), bool_decide_true by done.
  rewrite Ht, Hd.
  assert (forall d, truthy (PStr (isoformat d)) = true) as Htrue.
  { intros d. apply truthy_PStr, isoformat_nonempty. }
  destruct task as [ti de [du|] pr re [rt|] co ca]; simpl in *;
    rewrite ?Htrue; simpl; rewrite ?fromisoformat_isoformat; simpl;
    rewrite ?Htrue; simpl; rewrite ?fromisoformat_isoformat; simpl; done.
Qed.

Lemma from_dict_to_dict `{!DatetimeLaws} now task :
  valid_task task = true -> from_dict now (to_dict task) = Ok (Some task, []).
Proof. intros Hv. unfold from_dict. by rewrite from_dict_try_to_dict. Qed.

End Deserialization.

(** ** Loading *)

Section Loading.
Context `{DatetimeLib}.




(** The loop over the serialization of valid tasks rebuilds them all. *)
Lemma load_loop_serialized `{!DatetimeLaws} now l acc out :
  Forall (fun task => valid_task task = true) l ->
  load_loop now (map to_dict l) acc out = (Ok (acc ++ l), out).
Proof.
  intros Hl. revert acc out.
  induction Hl as [|task l Hv _ IH]; intros acc out; simpl.
  - by rewrite app_nil_r.
  - rewrite from_dict_to_dict by done.
    rewrite IH, app_nil_r, <- app_assoc. done.
Qed.

(** Whatever holds of every valid task holds of the tasks the loop returns,
    if it holds of those it started from. *)
Lemma load_loop_Forall (P : Task -> Prop) now data acc out l out' :
  (forall task, valid_task task = true -> P task) ->
  Forall P acc ->
  load_loop now data acc out = (Ok l, out') ->
  Forall P l.
Proof.
  intros HP. revert acc out.
  induction data as [|r data IH]; intros acc out Hacc; simpl.
  - by intros [= <- _].
  - destruct (from_dict now r) as [[[task|] msgs]|e] eqn:Hr; [| |done].
    + apply from_dict_Some in Hr as [Hr%from_dict_try_valid _].
      apply IH. apply Forall_app. split; [done|]. constructor; auto.
    + by apply IH.
Qed.

Lemma load_tasks_Forall (P : Task -> Prop) now s :
  (forall task, valid_task task = true -> P task) ->
  Forall P (tasks s) -> Forall P (tasks (load_tasks now s)).
Proof.
  intros HP Hs. unfold load_tasks, save_tasks.
  destruct (data_file s) as [| | |data]; simpl; try done.
  - by destruct (writable s).
  - destruct (py_iter data) as [items|e]; simpl; [|done].
    destruct (load_loop now items [] []) as [[l|e] out] eqn:Hl; simpl; [|done].
    eapply load_loop_Forall; [exact HP| |exact Hl]. constructor.
Qed.

End Loading.

(** ** Indexing *)

Lemma py_index_in_range len index :
  0 <= index < Z.of_nat len -> py_index len index = Ok (Z.to_nat index).
Proof.
  intros Hi. unfold py_index.
  destruct (Z.ltb_spec index 0); [lia|].
  destruct (Z.leb_spec 0 index); [|lia].
  destruct (Z.ltb_spec index (Z.of_nat len)); [done|lia].
Qed.

Lemma in_range_test len index :
  (0 <=? index) && (index <? Z.of_nat len) = true <-> 0 <= index < Z.of_nat len.
Proof. rewrite andb_true_iff, Z.leb_le, Z.ltb_lt. done. Qed.

Lemma list_delitem_in_range {A} (l : list A) index :
  0 <= index < Z.of_nat (length l) ->
  list_delitem l index = Ok (delete (Z.to_nat index) l).
Proof. intros Hi. unfold list_delitem. by rewrite py_index_in_range. Qed.

Lemma list_getitem_in_range {A} (l : list A) index x :
  0 <= index -> l !! Z.to_nat index = Some x -> list_getitem l index = Ok x.
Proof.
  intros Hi Hx. unfold list_getitem.
  rewrite py_index_in_range; simpl.
  - by rewrite Hx.
  - apply lookup_lt_Some in Hx. lia.
Qed.

Lemma lookup_in_range {A} (l : list A) index :
  0 <= index < Z.of_nat (length l) -> exists x, l !! Z.to_nat index = Some x.
Proof. intros Hi. apply lookup_lt_is_Some. lia. Qed.

(** ** The store *)

Section Store.
Context `{DatetimeLib}.

Lemma toggle_at_in_range l index task :
  0 <= index -> l !! Z.to_nat index = Some task ->
  toggle_at l index = Ok (<[Z.to_nat index := toggled task]> l).
Proof.
  intros Hi Hx. unfold toggle_at.
  rewrite (list_getitem_in_range l index task) by done. simpl.
  rewrite py_index_in_range; [done|].
  apply lookup_lt_Some in Hx. lia.
Qed.

Lemma tasks_save_tasks s : tasks (save_tasks s) = tasks s.
Proof. unfold save_tasks. by destruct (writable s). Qed.

Lemma data_file_save_tasks s :
  writable s = true -> data_file (save_tasks s) = JSON (serialize (tasks s)).
Proof. intros Hw. unfold save_tasks. by rewrite Hw. Qed.

Lemma remove_task_in_range index s :
  0 <= index < Z.of_nat (length (tasks s)) ->
  remove_task index s =
  (true, save_tasks (set_tasks (delete (Z.to_nat index) (tasks s)) s)).
Proof.
  intros Hi. unfold remove_task.
  rewrite (proj2 (in_range_test _ _) Hi).
  rewrite list_delitem_in_range by done. done.
Qed.

Lemma remove_task_out_of_range index s :
  ~ 0 <= index < Z.of_nat (length (tasks s)) -> remove_task index s = (false, s).
Proof.
  intros Hi. unfold remove_task.
  destruct ((0 <=? index) && (index <? Z.of_nat (length (tasks s)))) eqn:Ht;
    [|done].
  by apply in_range_test in Ht.
Qed.

Lemma toggle_task_completion_in_range index s task :
  0 <= index -> tasks s !! Z.to_nat index = Some task ->
  toggle_task_completion index s =
  (true, save_tasks (set_tasks (<[Z.to_nat index := toggled task]> (tasks s)) s)).
Proof.
  intros Hi Hx. unfold toggle_task_completion.
  assert (0 <= index < Z.of_nat (length (tasks s))) as Hr.
  { apply lookup_lt_Some in Hx. lia. }
  rewrite (proj2 (in_range_test _ _) Hr).
  rewrite (toggle_at_in_range _ _ task) by done. done.
Qed.

Lemma toggle_task_completion_out_of_range index s :
  ~ 0 <= index < Z.of_nat (length (tasks s)) ->
  toggle_task_completion index s = (false, s).
Proof.
  intros Hi. unfold toggle_task_completion.
  destruct ((0 <=? index) && (index <? Z.of_nat (length (tasks s)))) eqn:Ht;
    [|done].
  by apply in_range_test in Ht.
Qed.

Lemma toggled_toggled task :
  toggled (toggled task) = set_completed (PBool (truthy (completed task))) task.
Proof. unfold toggled, set_completed. simpl. by rewrite negb_involutive. Qed.

End Store.

(** ** Loading a malformed file *)

Section LoadMalformed.
Context `{DatetimeLib}.

(** C1, as amended. When the file is present but is not JSON, [load_tasks]
    reports the error, leaves [self.tasks] as it was (empty when the manager
    is being constructed, where [load_tasks] is called) and saves: if the
    write goes through, the file now holds the serialization of the store
    and its former content is gone; if the write is refused, that is
    printed too and the file stays.  When the file is JSON that cannot be
    loaded as a list of records (the value is not iterable, or an exception
    other than those [from_dict] catches leaves the loop), or cannot be read
    at all, the error is reported, the store is emptied and the file is left
    as it is. *)
Theorem load_tasks_malformed now :
  (forall s text, data_file s = NotJSON text ->
     load_tasks now s = save_tasks (print [ErrorInvalidJSON] s) /\
     tasks (load_tasks now s) = tasks s /\
     (writable s = true ->
        data_file (load_tasks now s) = JSON (serialize (tasks s)) /\
        stdout (load_tasks now s) = stdout s ++ [ErrorInvalidJSON]) /\
     (writable s = false ->
        data_file (load_tasks now s) = NotJSON text /\
        stdout (load_tasks now s)
          = stdout s ++ [ErrorInvalidJSON; ErrorSavingTasks OSError])) /\
  (forall text,
     tasks (TaskManager_init now (NotJSON text) true) = [] /\
     data_file (TaskManager_init now (NotJSON text) true) = JSON (PList []) /\
     stdout (TaskManager_init now (NotJSON text) true) = [ErrorInvalidJSON]) /\
  (forall s data e, data_file s = JSON data -> py_iter data = Raise e ->
     tasks (load_tasks now s) = [] /\
     data_file (load_tasks now s) = JSON data /\
     stdout (load_tasks now s) = stdout s ++ [ErrorLoadingTasks e]) /\
  (forall s data items out e,
     data_file s = JSON data -> py_iter data = Ok items ->
     load_loop now items [] [] = (Raise e, out) ->
     tasks (load_tasks now s) = [] /\
     data_file (load_tasks now s) = JSON data /\
     stdout (load_tasks now s) = stdout s ++ out ++ [ErrorLoadingTasks e]) /\
  (forall s,
     data_file s = Unreadable ->
     tasks (load_tasks now s) = [] /\
     data_file (load_tasks now s) = Unreadable /\
     stdout (load_tasks now s) = stdout s ++ [ErrorLoadingTasks OSError]).
Proof.
  split_and!.
  - intros s text Hf. unfold load_tasks. rewrite Hf. split; [done|].
    split; [by rewrite tasks_save_tasks|].
    unfold save_tasks. simpl.
    split; intros Hw; rewrite Hw; simpl; [done|].
    by rewrite <- app_assoc.
  - done.
  - intros s data e Hf Hi. unfold load_tasks. rewrite Hf, Hi. done.
  - intros s data items out e Hf Hi Hl. unfold load_tasks.
    rewrite Hf, Hi, Hl. done.
  - intros s Hf. unfold load_tasks. rewrite Hf. done.
Qed.

End LoadMalformed.

Lemma load_tasks_malformed_witness :
  data_file (load_tasks t0900 (fresh (NotJSON "{oops") true)) = JSON (PList []) /\
  tasks (load_tasks t0900 (fresh (JSON (PInt 7)) true)) = [] /\
  data_file (load_tasks t0900 (fresh (JSON (PInt 7)) true)) = JSON (PInt 7).
Proof.
  destruct (load_tasks_malformed t0900) as (Hnot & _ & Hiter & _).
  split.
  - destruct (Hnot (fresh (NotJSON "{oops") true) "{oops" eq_refl)
      as (_ & _ & Hw & _).
    exact (proj1 (Hw eq_refl)).
  - destruct (Hiter (fresh (JSON (PInt 7)) true) (PInt 7) TypeError
                eq_refl eq_refl) as (Ht & Hf & _).
    exact (conj Ht Hf).
Defined.

(** C1, as stated, fails: a file that is not JSON is overwritten by the
    load that finds it. *)
Lemma load_tasks_destroys_file :
  data_file (fresh (NotJSON "{oops") true) = NotJSON "{oops" /\
  data_file (load_tasks t0900 (fresh (NotJSON "{oops") true)) = JSON (PList []) /\
  data_file (load_tasks t0900 (fresh (NotJSON "{oops") true))
    <> data_file (fresh (NotJSON "{oops") true).
Proof. split_and!; done. Qed.

(** ** The laws hold of the library of the examples *)

#[global] Instance naive_datetime_laws : DatetimeLaws.
Proof.
  split.
  - intros [s ok]. simpl. unfold NaiveISO.parse, NaiveISO.format. simpl.
    destruct (decide (Is_true (NaiveISO.well_formed s))) as [ok'|bad].
    + f_equal. by apply (sig_eq_pi _).
    + done.
  - intros [s ok]. simpl. unfold NaiveISO.format. simpl. by intros ->.
Qed.

(** ** Loading records, one of them malformed *)

Section LoadRecords.
Context `{DatetimeLib}.

Lemma caught_spec e : caught e = true <-> (exists key, e = KeyError key) \/ e = ValueError.
Proof.
  destruct e; simpl; split; try done; eauto.
  all: intros [[key [=]]|[=]].
Qed.

(** Two failures [from_dict] does not catch: the element is not an object;
    its title is a true value that is not text. *)
Lemma from_dict_try_not_record now data :
  (forall d, data <> PDict d) -> from_dict_try now data = Raise TypeError.
Proof. intros Hd. destruct data; try done. by destruct (Hd d). Qed.

Lemma from_dict_try_title_not_text now d v :
  dict_lookup "title" d = Some v -> truthy v = true ->
  (forall s, v <> PStr s) ->
  from_dict_try now (PDict d) = Raise AttributeError.
Proof.
  intros Hd Hv Hs. unfold from_dict_try. simpl. rewrite Hd. simpl.
  destruct (dict_lookup "description" d), (dict_lookup "priority" d),
    (dict_lookup "reminder" d); simpl; unfold Task_init; rewrite Hv; simpl.
  all: destruct v; try done; by destruct (Hs s).
Qed.


End LoadRecords.



(** ** Round trip through the file *)

Section RoundTrip.
Context `{DatetimeLib} `{!DatetimeLaws}.

Lemma load_tasks_serialized now s l :
  data_file s = JSON (serialize l) ->
  Forall (fun task => valid_task task = true) l ->
  load_tasks now s = print [] (set_tasks l s).
Proof.
  intros Hf Hl. unfold load_tasks. rewrite Hf. simpl.
  by rewrite load_loop_serialized.
Qed.

(** C3. Adding a valid task to a store of valid tasks, the write going
    through, and loading the file again gives the store back with the task
    at its end: the record [to_dict] writes for the task deserializes to the
    very same task, field by field.  The same holds of a manager constructed
    anew on the file. *)
Theorem add_task_load_tasks now task s :
  valid_task task = true ->
  Forall (fun t => valid_task t = true) (tasks s) ->
  writable s = true ->
  (add_task task s).1 = true /\
  data_file (add_task task s).2 = JSON (serialize (tasks s ++ [task])) /\
  from_dict now (to_dict task) = Ok (Some task, []) /\
  tasks (load_tasks now (add_task task s).2) = tasks s ++ [task] /\
  last (tasks (load_tasks now (add_task task s).2)) = Some task /\
  tasks (TaskManager_init now (data_file (add_task task s).2) true)
    = tasks s ++ [task].
Proof.
  intros Hv Hs Hw.
  assert (Forall (fun t => valid_task t = true) (tasks s ++ [task])) as Hall.
  { apply Forall_app. split; [done|]. by constructor. }
  assert (data_file (add_task task s).2 = JSON (serialize (tasks s ++ [task])))
    as Hf.
  { unfold add_task. simpl. by rewrite data_file_save_tasks. }
  split_and!; [done|done|by apply from_dict_to_dict| | |].
  - by rewrite (load_tasks_serialized _ _ _ Hf Hall).
  - rewrite (load_tasks_serialized _ _ _ Hf Hall). simpl. apply last_snoc.
  - rewrite Hf. unfold TaskManager_init.
    by rewrite (load_tasks_serialized _ _ (tasks s ++ [task])).
Qed.

End RoundTrip.

Lemma add_task_load_tasks_witness :
  valid_task water_plants = true /\
  tasks (load_tasks t1200 (add_task water_plants (holding [buy_milk; call_bank])).2)
  = [buy_milk; call_bank; water_plants].
Proof.
  split; [reflexivity|].
  refine (proj1 (proj2 (proj2 (proj2 (add_task_load_tasks t1200 water_plants
    (holding [buy_milk; call_bank]) _ _ _))))).
  - reflexivity.
  - repeat constructor.
  - reflexivity.
Defined.

(** ** Removal *)

Section Removal.
Context `{DatetimeLib}.

(** C4. With the index in range, [remove_task] returns true and the list of
    all tasks is the former one without the entry at that position, the
    others in their order, so one shorter; out of range it returns false and
    nothing at all has changed. *)
Theorem remove_task_spec index s :
  (0 <= index < Z.of_nat (length (tasks s)) ->
   exists before removed after,
     tasks s = before ++ removed :: after /\
     length before = Z.to_nat index /\
     (remove_task index s).1 = true /\
     get_tasks true (remove_task index s).2 = before ++ after /\
     S (length (get_tasks true (remove_task index s).2)) = length (tasks s)) /\
  (~ 0 <= index < Z.of_nat (length (tasks s)) ->
   remove_task index s = (false, s)).
Proof.
  split; [|apply remove_task_out_of_range].
  intros Hi. destruct (lookup_in_range (tasks s) index Hi) as [x Hx].
  exists (take (Z.to_nat index) (tasks s)), x,
    (drop (S (Z.to_nat index)) (tasks s)).
  rewrite remove_task_in_range by done. simpl.
  rewrite tasks_save_tasks. simpl. rewrite delete_take_drop.
  split_and!.
  - by rewrite take_drop_middle.
  - rewrite length_take. lia.
  - done.
  - done.
  - rewrite <- (take_drop_middle _ _ _ Hx) at 3.
    rewrite !length_app. simpl. lia.
Qed.

End Removal.

Lemma remove_task_spec_witness :
  get_tasks true (remove_task 1 (holding [buy_milk; call_bank; water_plants])).2
    = [buy_milk; water_plants] /\
  remove_task 3 (holding [buy_milk; call_bank; water_plants])
    = (false, holding [buy_milk; call_bank; water_plants]) /\
  remove_task (-1) (holding [buy_milk; call_bank; water_plants])
    = (false, holding [buy_milk; call_bank; water_plants]).
Proof.
  split_and!.
  - destruct (proj1 (remove_task_spec 1 (holding [buy_milk; call_bank; water_plants])))
      as (before & removed & after & _); [simpl; lia|].
    reflexivity.
  - apply (proj2 (remove_task_spec 3 (holding [buy_milk; call_bank; water_plants]))).
    simpl. lia.
  - apply (proj2 (remove_task_spec (-1) (holding [buy_milk; call_bank; water_plants]))).
    simpl. lia.
Defined.

(** ** Toggling completion *)

Section Toggling.
Context `{DatetimeLib}.

(** C5. With the index in range both of two successive calls of
    [toggle_task_completion] return true.  The first gives the task at that
    position the opposite completion, the second gives it back the one it
    had: the same truth value in every case, and the very same task (hence
    the same store) when [completed] was a boolean, as it is for every task
    the program constructs or toggles.  No other field of the task and no
    other entry of the store changes. *)
Theorem toggle_task_completion_twice index s :
  0 <= index < Z.of_nat (length (tasks s)) ->
  let once := toggle_task_completion index s in
  let twice := toggle_task_completion index once.2 in
  once.1 = true /\ twice.1 = true /\
  exists task task1 task2,
    tasks s !! Z.to_nat index = Some task /\
    tasks once.2 = <[Z.to_nat index := task1]> (tasks s) /\
    tasks twice.2 = <[Z.to_nat index := task2]> (tasks s) /\
    completed task1 = PBool (negb (truthy (completed task))) /\
    completed task2 = PBool (truthy (completed task)) /\
    truthy (completed task2) = truthy (completed task) /\
    same_but_completed task1 task /\ same_but_completed task2 task /\
    (forall b, completed task = PBool b ->
       task2 = task /\ tasks twice.2 = tasks s).
Proof.
  intros Hi. destruct (lookup_in_range (tasks s) index Hi) as [task Htask].
  assert (0 <= index) as Hpos by lia.
  simpl.
  rewrite (toggle_task_completion_in_range index s task) by done. simpl.
  assert (tasks (save_tasks (set_tasks
            (<[Z.to_nat index := toggled task]> (tasks s)) s))
          !! Z.to_nat index = Some (toggled task)) as Htask1.
  { rewrite tasks_save_tasks. simpl. apply list_lookup_insert_eq.
    by apply lookup_lt_Some in Htask. }
  rewrite (toggle_task_completion_in_range index _ (toggled task)) by done.
  simpl. rewrite !tasks_save_tasks. simpl. rewrite list_insert_insert_eq.
  split_and!; [done|done|].
  exists task, (toggled task), (toggled (toggled task)).
  split_and!; try done.
  - simpl. by rewrite negb_involutive.
  - simpl. by rewrite negb_involutive.
  - intros b Hb. rewrite toggled_toggled, Hb. simpl.
    assert (set_completed (PBool b) task = task) as ->.
    { destruct task; simpl in *. by subst. }
    split; [done|]. by apply list_insert_id.
Qed.

End Toggling.

Lemma toggle_task_completion_twice_witness :
  (toggle_task_completion 0 (holding [buy_milk; call_bank])).1 = true /\
  (toggle_task_completion 0
     (toggle_task_completion 0 (holding [buy_milk; call_bank])).2).1 = true.
Proof.
  destruct (toggle_task_completion_twice 0 (holding [buy_milk; call_bank]))
    as (H1 & H2 & _); [simpl; lia|].
  exact (conj H1 H2).
Defined.

(** ** The reminder poll *)

Section Reminders.
Context `{DatetimeLib}.




Lemma check_reminders_stopped now s :
  _running s = false -> check_reminders now s = s.
Proof. intros Hr. unfold check_reminders. by rewrite Hr. Qed.


End Reminders.


(** ** Persistence of every mutation *)

Section Persistence.
Context `{DatetimeLib}.


Lemma save_tasks_refused s :
  writable s = false ->
  data_file (save_tasks s) = data_file s /\
  stdout (save_tasks s) = stdout s ++ [ErrorSavingTasks OSError].
Proof. intros Hw. unfold save_tasks. by rewrite Hw. Qed.

End Persistence.


(** ** Priority *)

Section Priority.
Context `{DatetimeLib}.

(** C7. Whatever is passed for the priority, a task that gets constructed
    has one of the three priorities: the text given, lowercased, when that
    is one of the three; ["medium"] when it is any other text, the empty
    text included, and when the value given is false ([None], as for a
    missing one).  Construction from a non-blank title, a description and a
    priority text (or none) always succeeds, with that priority. *)
Theorem priority_normalized now :
  (forall ti de du pr re rt task,
     Task_init now ti de du pr re rt = Ok task ->
     priority task ∈ valid_priorities /\
     (forall p, pr = PStr p -> priority task = spec_priority (Some p)) /\
     (truthy pr = false -> priority task = "medium")) /\
  (forall s d du p re rt,
     strip s <> "" ->
     exists task,
       Task_init now (PStr s) (PStr d) du (from_option PStr PNone p) re rt
         = Ok task /\
       priority task = spec_priority p /\
       priority task ∈ valid_priorities).
Proof.
  split.
  - intros ti de du pr re rt task
      (s & d & p0 & -> & -> & Hs & Hp & ->)%Task_init_Ok. simpl.
    split_and!.
    + apply stored_priority_valid.
    + intros p ->. simpl in Hp.
      destruct (String.eqb_spec p "") as [Hp0|Hp0]; simpl in Hp;
        injection Hp as Hp; subst p0; [by subst p|].
      repeat case_bool_decide; done.
    + intros Hf. rewrite Hf in Hp. by injection Hp as <-.
  - intros s d du p re rt Hs. eexists. split; [by apply Task_init_text|].
    simpl. split; [done|].
    destruct p as [p|]; simpl.
    + case_bool_decide; [done|]. unfold valid_priorities.
      rewrite !elem_of_cons. auto.
    + unfold valid_priorities. rewrite !elem_of_cons. auto.
Qed.

End Priority.

Lemma priority_normalized_witness :
  (exists task,
     Task_init t0900 (PStr " Buy milk ") (PStr "") None (PStr "URGENT")
       (PBool false) None = Ok task /\ priority task = "medium") /\
  (exists task,
     Task_init t0900 (PStr " Buy milk ") (PStr "") None (PStr "High")
       (PBool false) None = Ok task /\ priority task = "high").
Proof.
  destruct (priority_normalized t0900) as [_ Htext].
  split.
  - destruct (Htext " Buy milk " "" None (Some "URGENT") (PBool false) None)
      as (task & Ht & Hp & _); [done|].
    exists task. split; [exact Ht|exact Hp].
  - destruct (Htext " Buy milk " "" None (Some "High") (PBool false) None)
      as (task & Ht & Hp & _); [done|].
    exists task. split; [exact Ht|exact Hp].
Defined.

(** ** The title of a task *)

Section Title.
Context `{DatetimeLib}.

Lemma title_ok_toggled task : title_ok task -> title_ok (toggled task).
Proof. done. Qed.

Lemma remove_task_Forall (P : Task -> Prop) index s :
  Forall P (tasks s) -> Forall P (tasks (remove_task index s).2).
Proof.
  intros Hs.
  destruct (decide (0 <= index < Z.of_nat (length (tasks s)))) as [Hi|Hi].
  - rewrite remove_task_in_range by done. simpl.
    rewrite tasks_save_tasks. simpl. by apply Forall_delete.
  - by rewrite remove_task_out_of_range.
Qed.

Lemma toggle_task_completion_Forall (P : Task -> Prop) index s :
  (forall task, P task -> P (toggled task)) ->
  Forall P (tasks s) -> Forall P (tasks (toggle_task_completion index s).2).
Proof.
  intros HP Hs.
  destruct (decide (0 <= index < Z.of_nat (length (tasks s)))) as [Hi|Hi].
  - destruct (lookup_in_range (tasks s) index Hi) as [task Htask].
    rewrite (toggle_task_completion_in_range index s task) by (done || lia).
    simpl. rewrite tasks_save_tasks. simpl.
    apply Forall_insert; [done|]. apply HP.
    by eapply Forall_lookup_1.
  - by rewrite toggle_task_completion_out_of_range.
Qed.

Lemma from_dict_blank_title now d s :
  dict_lookup "title" d = Some (PStr s) -> strip s = "" ->
  from_dict now (PDict d) = Ok (None, [ErrorLoadingTask ValueError]).
Proof.
  intros Hd Hs. unfold from_dict, from_dict_try. simpl. rewrite Hd. simpl.
  destruct (dict_lookup "description" d), (dict_lookup "priority" d),
    (dict_lookup "reminder" d); simpl; by rewrite Task_init_blank.
Qed.

(** C8. A task that [Task.__init__] or [Task.from_dict] has built has a
    title that is stripped and not empty.  A title that is empty or all
    whitespace makes [Task.__init__] raise [ValueError], so that no task is
    built, and makes [from_dict] print the error and return [None].  A
    manager starts with such titles only, and every call on it keeps it so:
    adding a constructed task, removing, toggling, loading, saving, polling
    and stopping. *)
Theorem title_never_blank :
  (forall now ti de du pr re rt task,
     Task_init now ti de du pr re rt = Ok task ->
     title_ok task /\ title task <> "" /\ strip (title task) = title task) /\
  (forall now data task msgs,
     from_dict now data = Ok (Some task, msgs) ->
     title_ok task /\ title task <> "" /\ strip (title task) = title task) /\
  (forall now s de du pr re rt,
     strip s = "" -> Task_init now (PStr s) de du pr re rt = Raise ValueError) /\
  (forall now d s,
     dict_lookup "title" d = Some (PStr s) -> strip s = "" ->
     from_dict now (PDict d) = Ok (None, [ErrorLoadingTask ValueError])) /\
  (forall now file can_write,
     Forall title_ok (tasks (TaskManager_init now file can_write))) /\
  (forall s s', step s s' ->
     Forall title_ok (tasks s) -> Forall title_ok (tasks s')).
Proof.
  assert (forall task, valid_task task = true ->
            title_ok task /\ title task <> "" /\ strip (title task) = title task)
    as Hvalid.
  { intros task Hv. split; [by apply valid_task_title_ok|].
    apply valid_task_spec in Hv as (? & ? & _). done. }
  split_and!.
  - intros now ti de du pr re rt task Ht%Task_init_valid. by apply Hvalid.
  - intros now data task msgs [Ht%from_dict_try_valid _]%from_dict_Some.
    by apply Hvalid.
  - intros. by apply Task_init_blank.
  - intros. by eapply from_dict_blank_title.
  - intros now file can_write. unfold TaskManager_init. simpl.
    apply load_tasks_Forall; [apply valid_task_title_ok|]. simpl. constructor.
  - intros s s' Hstep Hs. destruct Hstep; simpl.
    + rewrite tasks_save_tasks. simpl. apply Forall_app. split; [done|].
      constructor; [|constructor].
      eapply valid_task_title_ok, Task_init_valid. eassumption.
    + by apply remove_task_Forall.
    + apply toggle_task_completion_Forall; [|done]. apply title_ok_toggled.
    + apply load_tasks_Forall; [apply valid_task_title_ok|done].
    + by rewrite tasks_save_tasks.
    + unfold check_reminders. by destruct (_running s).
    + unfold stop. by rewrite tasks_save_tasks.
Qed.

End Title.

Lemma title_never_blank_witness :
  Task_init t0900 (PStr "   ") (PStr "x") None (PStr "low") (PBool false) None
    = Raise ValueError /\
  Forall title_ok
    (tasks (TaskManager_init t1200
              (JSON (PList [to_dict buy_milk; untitled; to_dict call_bank])) true)).
Proof.
  destruct title_never_blank as (_ & _ & Hblank & _ & Hinit & _).
  split.
  - apply Hblank. reflexivity.
  - apply Hinit.
Defined.

(** ** Required and optional fields of a record *)

Lemma getitem_snoc_ne d key v k :
  k <> key -> getitem (PDict (d ++ [(key, v)])) k = getitem (PDict d) k.
Proof.
  intros Hk. unfold getitem. rewrite dict_lookup_app. simpl.
  destruct (String.eqb_spec key k); [congruence|].
  by destruct (dict_lookup k d).
Qed.

Lemma py_get_snoc_ne d key v k default :
  k <> key ->
  py_get (PDict (d ++ [(key, v)])) k default = py_get (PDict d) k default.
Proof.
  intros Hk. unfold py_get. rewrite dict_lookup_app. simpl.
  destruct (String.eqb_spec key k); [congruence|].
  by destruct (dict_lookup k d).
Qed.

Lemma py_get_snoc_default d key v :
  dict_lookup key d = None ->
  py_get (PDict (d ++ [(key, v)])) key v = py_get (PDict d) key v.
Proof.
  intros Hk. unfold py_get. rewrite dict_lookup_app, Hk. simpl.
  by rewrite String.eqb_refl.
Qed.

(** Lookups of the other keys do not see an entry added at the end. *)
Ltac drop_snoc :=
  repeat first
    [ rewrite (getitem_snoc_ne _ _ _ "title") by done
    | rewrite (getitem_snoc_ne _ _ _ "due_date") by done
    | rewrite (getitem_snoc_ne _ _ _ "reminder_time") by done
    | rewrite (getitem_snoc_ne _ _ _ "created_at") by done
    | rewrite (py_get_snoc_ne _ _ _ "description") by done
    | rewrite (py_get_snoc_ne _ _ _ "priority") by done
    | rewrite (py_get_snoc_ne _ _ _ "reminder") by done
    | rewrite (py_get_snoc_ne _ _ _ "due_date") by done
    | rewrite (py_get_snoc_ne _ _ _ "reminder_time") by done
    | rewrite (py_get_snoc_ne _ _ _ "completed") by done ].

Section Fields.
Context `{DatetimeLib}.

Lemma from_dict_try_missing_title now d :
  dict_lookup "title" d = None ->
  from_dict_try now (PDict d) = Raise (KeyError "title").
Proof. intros Hd. unfold from_dict_try. simpl. by rewrite Hd. Qed.

Lemma from_dict_try_optional now d key default :
  (key, default) ∈ optional_fields ->
  dict_lookup key d = None ->
  from_dict_try now (PDict (d ++ [(key, default)])) = from_dict_try now (PDict d).
Proof.
  unfold optional_fields. rewrite !elem_of_cons, elem_of_nil.
  intros Hin Hd. unfold from_dict_try.
  destruct Hin as [[= -> ->]|[[= -> ->]|[[= -> ->]|[[= -> ->]|[[= -> ->]|[[= -> ->]|[]]]]]]].
  all: rewrite (py_get_snoc_default _ _ _ Hd).
  all: drop_snoc.
  all: try reflexivity.
  all: assert (forall v, py_get (PDict d) _ v = Ok v) as Hget
         by (intros v; unfold py_get; by rewrite Hd).
  all: rewrite !Hget; simpl; reflexivity.
Qed.

Lemma from_dict_try_minimal now s c at_time :
  strip s <> "" -> fromisoformat c = Some at_time ->
  from_dict_try now (PDict [("title", PStr s); ("created_at", PStr c)]) =
  Ok {| title := strip s; description := ""; due_date := None;
        priority := "medium"; reminder := false; reminder_time := None;
        completed := PBool false; created_at := at_time |}.
Proof.
  intros Hs Hc. unfold from_dict_try. simpl.
  pose proof (Task_init_text now s "" None (Some "medium") (PBool false) None Hs)
    as Hinit.
  simpl in Hinit. rewrite Hinit. simpl. by rewrite Hc.
Qed.

Lemma bind_ret {A B} (a : A) (f : A -> result B) : (Ok a ≫= f) = f a.
Proof. done. Qed.

(** Follow a successful run one step further in the goal. *)
Ltac replay Hrun :=
  let a := fresh "a" in
  let E := fresh "E" in
  apply bind_Ok in Hrun as (a & E & Hrun);
  cbv beta in Hrun; rewrite E, bind_ret; cbv beta.

Lemma from_dict_try_missing_created_at now d c task :
  dict_lookup "created_at" d = None ->
  from_dict_try now (PDict (d ++ [("created_at", PStr c)])) = Ok task ->
  from_dict_try now (PDict d) = Raise (KeyError "created_at").
Proof.
  intros Hd Hrun. unfold from_dict_try in *.
  repeat first
    [ rewrite (getitem_snoc_ne _ _ _ "title") in Hrun by done
    | rewrite (getitem_snoc_ne _ _ _ "due_date") in Hrun by done
    | rewrite (getitem_snoc_ne _ _ _ "reminder_time") in Hrun by done
    | rewrite py_get_snoc_ne in Hrun by done ].
  do 10 replay Hrun.
  unfold getitem. by rewrite Hd.
Qed.

(** What a record that deserializes must contain. *)
Lemma from_dict_try_required now d task :
  from_dict_try now (PDict d) = Ok task ->
  exists s c,
    dict_lookup "title" d = Some (PStr s) /\ strip s <> "" /\
    title task = strip s /\
    dict_lookup "created_at" d = Some (PStr c) /\
    fromisoformat c = Some (created_at task).
Proof.
  unfold from_dict_try. intros Hrun.
  apply bind_Ok in Hrun as (ti & Hti & Hrun).
  apply bind_Ok in Hrun as (de & _ & Hrun).
  apply bind_Ok in Hrun as (pr & _ & Hrun).
  apply bind_Ok in Hrun as (re & _ & Hrun).
  apply bind_Ok in Hrun as (t0 & Ht0 & Hrun).
  apply bind_Ok in Hrun as (due & _ & Hrun).
  apply bind_Ok in Hrun as (t1 & Ht1 & Hrun).
  apply bind_Ok in Hrun as (rt & _ & Hrun).
  apply bind_Ok in Hrun as (t2 & Ht2 & Hrun).
  apply bind_Ok in Hrun as (co & _ & Hrun).
  apply bind_Ok in Hrun as (v & Hv & Hrun).
  apply bind_Ok in Hrun as (at_time & Hat & Hrun).
  injection Hrun as <-. simpl.
  apply Task_init_Ok in Ht0 as (s & d0 & p & -> & _ & Hs & _ & ->).
  assert (title t1 = strip s) as Htitle1.
  { destruct (truthy due); [|by injection Ht1 as <-].
    apply bind_Ok in Ht1 as (? & _ & Ht1). apply bind_Ok in Ht1 as (? & _ & Ht1).
    by injection Ht1 as <-. }
  assert (title t2 = strip s) as Htitle2.
  { destruct (truthy rt); [|by injection Ht2 as <-].
    apply bind_Ok in Ht2 as (? & _ & Ht2). apply bind_Ok in Ht2 as (? & _ & Ht2).
    by injection Ht2 as <-. }
  unfold getitem in Hti, Hv.
  destruct (dict_lookup "title" d) as [ti|]; [|done].
  destruct (dict_lookup "created_at" d) as [ca|]; [|done].
  injection Hti as ->. injection Hv as ->.
  unfold py_fromisoformat in Hat. destruct v as [| | |c| |]; try done.
  destruct (fromisoformat c) as [at_time'|] eqn:Hc; [|done].
  injection Hat as ->. by exists s, c.
Qed.

(** C10. A record with a title and a creation time and nothing else
    deserializes, every other field taking its default.  A record that lacks
    one of the six other fields is read as the same record with that field
    at its default.  A record without [title] is skipped with the
    [KeyError] printed, and so is a record whose one defect is to lack
    [created_at].  A record deserializes only if its [title] is a text that
    is not blank and its [created_at] a text [fromisoformat] accepts. *)
Theorem from_dict_fields now :
  (forall s c at_time,
     strip s <> "" -> fromisoformat c = Some at_time ->
     from_dict now (PDict [("title", PStr s); ("created_at", PStr c)]) =
     Ok (Some {| title := strip s; description := ""; due_date := None;
                 priority := "medium"; reminder := false;
                 reminder_time := None; completed := PBool false;
                 created_at := at_time |}, [])) /\
  (forall d key default,
     (key, default) ∈ optional_fields -> dict_lookup key d = None ->
     from_dict now (PDict (d ++ [(key, default)])) = from_dict now (PDict d)) /\
  (forall d,
     dict_lookup "title" d = None ->
     from_dict now (PDict d) = Ok (None, [ErrorLoadingTask (KeyError "title")])) /\
  (forall d c task,
     dict_lookup "created_at" d = None ->
     from_dict_try now (PDict (d ++ [("created_at", PStr c)])) = Ok task ->
     from_dict now (PDict d)
       = Ok (None, [ErrorLoadingTask (KeyError "created_at")])) /\
  (forall d task msgs,
     from_dict now (PDict d) = Ok (Some task, msgs) ->
     exists s c,
       dict_lookup "title" d = Some (PStr s) /\ strip s <> "" /\
       title task = strip s /\
       dict_lookup "created_at" d = Some (PStr c) /\
       fromisoformat c = Some (created_at task)).
Proof.
  split_and!.
  - intros s c at_time Hs Hc. unfold from_dict.
    by rewrite (from_dict_try_minimal now s c at_time).
  - intros d key default Hin Hd. unfold from_dict.
    by rewrite from_dict_try_optional.
  - intros d Hd. unfold from_dict. by rewrite from_dict_try_missing_title.
  - intros d c task Hd Hrun. unfold from_dict.
    by rewrite (from_dict_try_missing_created_at now d c task).
  - intros d task msgs [Hrun _]%from_dict_Some.
    by apply (from_dict_try_required now).
Qed.

End Fields.

Lemma from_dict_fields_witness :
  from_dict t1200
    (PDict [("title", PStr "  Pay rent "); ("created_at", PStr "2024-03-01T09:00:00")])
  = Ok (Some {| title := "Pay rent"; description := ""; due_date := None;
                priority := "medium"; reminder := false;
                reminder_time := None; completed := PBool false;
                created_at := t0900 |}, []) /\
  from_dict t1200 (PDict [("title", PStr "Pay rent"); ("priority", PStr "high")])
  = Ok (None, [ErrorLoadingTask (KeyError "created_at")]).
Proof.
  destruct (from_dict_fields t1200) as (Hmin & _ & _ & Hcreated & _).
  split.
  - apply (Hmin "  Pay rent " "2024-03-01T09:00:00" t0900); [done|reflexivity].
  - apply (Hcreated [("title", PStr "Pay rent"); ("priority", PStr "high")]
             "2024-03-01T09:00:00"
             {| title := "Pay rent"; description := ""; due_date := None;
                priority := "high"; reminder := false; reminder_time := None;
                completed := PBool false; created_at := t0900 |});
      reflexivity.
Defined.

(** * Further properties of the store *)

(** ** Deserialization does not look at the clock *)

Section Clock.
Context `{DatetimeLib}.

(** The constructor stamps the task with the time of the call, and nothing
    else in it depends on that time. *)
Lemma Task_init_now now now' ti de du pr re rt :
  Task_init now' ti de du pr re rt
  = set_created_at now' <$> Task_init now ti de du pr re rt.
Proof.
  unfold Task_init. destruct (truthy ti); simpl; [|done].
  destruct (str_strip ti) as [s|]; simpl; [|done].
  destruct (String.eqb s ""); simpl; [done|].
  destruct (str_strip de); simpl; [|done].
  destruct (if truthy pr then str_lower pr else Ok "medium"); reflexivity.
Qed.

Lemma from_dict_try_now now now' data :
  from_dict_try now' data = from_dict_try now data.
Proof.
  unfold from_dict_try.
  destruct (getitem data "title") as [ti|]; simpl; [|done].
  destruct (py_get data "description" (PStr "")) as [de|]; simpl; [|done].
  destruct (py_get data "priority" (PStr "medium")) as [pr|]; simpl; [|done].
  destruct (py_get data "reminder" (PBool false)) as [re|]; simpl; [|done].
  rewrite (Task_init_now now now').
  destruct (Task_init now ti de None pr re None) as [task|]; simpl; [|done].
  repeat match goal with
    | |- context [py_get data ?k ?v] =>
        destruct (py_get data k v); simpl; try done
    | |- context [getitem data ?k] =>
        destruct (getitem data k); simpl; try done
    | |- context [py_fromisoformat ?v] =>
        destruct (py_fromisoformat v); simpl; try done
    | |- context [truthy ?v] => destruct (truthy v); simpl; try done
    end.
Qed.

(** X1. What [from_dict] returns, and what it prints, does not depend on
    when it is called: the creation time of a loaded task is the one of the
    record, never the time of the load. *)
Theorem from_dict_ignores_clock now now' data :
  from_dict now' data = from_dict now data /\
  (forall task msgs,
     from_dict now data = Ok (Some task, msgs) ->
     exists text, getitem data "created_at" = Ok (PStr text) /\
                  fromisoformat text = Some (created_at task)).
Proof.
  split.
  - unfold from_dict. by rewrite (from_dict_try_now now now').
  - intros task msgs [Hrun _]%from_dict_Some.
    assert (exists d, data = PDict d) as [d ->].
    { unfold from_dict_try in Hrun. destruct data; try done. eauto. }
    destruct (from_dict_try_required now d task Hrun)
      as (s & c & _ & _ & _ & Hc & Hat).
    exists c. simpl. by rewrite Hc.
Qed.

End Clock.

Lemma from_dict_ignores_clock_witness :
  from_dict t1800 (to_dict buy_milk) = from_dict t0900 (to_dict buy_milk) /\
  exists text, getitem (to_dict buy_milk) "created_at" = Ok (PStr text) /\
               fromisoformat text = Some (created_at buy_milk).
Proof.
  destruct (from_dict_ignores_clock t0900 t1800 (to_dict buy_milk))
    as [Hsame Hcreated].
  split; [exact Hsame|].
  apply (Hcreated buy_milk []). reflexivity.
Defined.

(** ** Serialization loses nothing *)

Section Injective.
Context `{DatetimeLib} `{!DatetimeLaws}.

Lemma isoformat_inj d1 d2 : isoformat d1 = isoformat d2 -> d1 = d2.
Proof.
  intros Hd. apply (inj Some).
  by rewrite <- (fromisoformat_isoformat d1), <- (fromisoformat_isoformat d2), Hd.
Qed.

Lemma isoformat_or_None_inj x y :
  isoformat_or_None x = isoformat_or_None y -> x = y.
Proof.
  destruct x, y; simpl; try done. intros [= Hd]. f_equal. by apply isoformat_inj.
Qed.

Lemma to_dict_inj task1 task2 : to_dict task1 = to_dict task2 -> task1 = task2.
Proof.
  destruct task1, task2. unfold to_dict. simpl.
  intros [= -> -> Hdue -> -> Hrt -> Hca].
  apply isoformat_or_None_inj in Hdue, Hrt. apply isoformat_inj in Hca.
  by subst.
Qed.

(** X2. Two tasks that [to_dict] maps to the same record are the same task,
    and two stores that serialize to the same list are the same store: every
    field of a task is in what [save_tasks] writes. *)
Theorem serialize_inj l1 l2 :
  serialize l1 = serialize l2 -> l1 = l2.
Proof.
  unfold serialize. intros [= Hl]. revert l2 Hl.
  induction l1 as [|task1 l1 IH]; intros [|task2 l2]; simpl; try done.
  remember (to_dict task1) as r1 eqn:Hr1. remember (to_dict task2) as r2 eqn:Hr2.
  intros [= Hr Hl%IH]. subst. f_equal. by apply to_dict_inj.
Qed.

End Injective.

Lemma serialize_inj_witness :
  serialize [buy_milk; call_bank] = serialize [buy_milk; call_bank] /\
  [buy_milk; call_bank] = [buy_milk; call_bank].
Proof.
  split; [reflexivity|].
  apply (serialize_inj [buy_milk; call_bank] [buy_milk; call_bank]).
  reflexivity.
Defined.

(** ** Every record is loaded or logged *)

Section Accounting.
Context `{DatetimeLib}.

(** The loop, from any point it has reached. *)
Lemma load_loop_accounts_gen now items acc out0 l out :
  load_loop now items acc out0 = (Ok l, out) ->
  exists skipped,
    l = acc ++ omap (fun r => match from_dict_try now r with
                              | Ok task => Some task
                              | Raise _ => None
                              end) items /\
    out = out0 ++ skipped /\
    (length l + length skipped = length acc + length items)%nat /\
    Forall (fun m => exists e, m = ErrorLoadingTask e /\ caught e = true) skipped.
Proof.
  revert acc out0. induction items as [|r items IH]; intros acc out0; simpl.
  - intros [= <- <-]. exists []. rewrite !app_nil_r. split_and!; try done; lia.
  - unfold from_dict at 1.
    destruct (from_dict_try now r) as [task|e] eqn:Hr.
    + intros Hrun. destruct (IH _ _ Hrun) as (skipped & Hl & Hout & Hlen & Hsk).
      exists skipped. rewrite app_nil_r in Hout. rewrite <- app_assoc in Hl.
      split_and!; try done. rewrite length_app in Hlen. simpl in *. lia.
    + destruct (caught e) eqn:Hc; [|done].
      intros Hrun. destruct (IH _ _ Hrun) as (skipped & Hl & Hout & Hlen & Hsk).
      exists (ErrorLoadingTask e :: skipped). rewrite <- app_assoc in Hout.
      split_and!; try done.
      * simpl. lia.
      * constructor; [eauto|done].
Qed.

(** X3. When [load_tasks] reads a list of records and no exception leaves
    the loop, the store holds exactly the records that deserialize, in the
    order of the file, and one line is printed for each of the others: the
    tasks loaded and the errors printed add up to the records of the file. *)
Theorem load_tasks_accounts now s items l out :
  data_file s = JSON (PList items) ->
  load_loop now items [] [] = (Ok l, out) ->
  tasks (load_tasks now s) = l /\
  stdout (load_tasks now s) = stdout s ++ out /\
  l = omap (fun r => match from_dict_try now r with
                     | Ok task => Some task
                     | Raise _ => None
                     end) items /\
  (length l + length out = length items)%nat /\
  Forall (fun m => exists e, m = ErrorLoadingTask e /\ caught e = true) out.
Proof.
  intros Hf Hl. unfold load_tasks. rewrite Hf. simpl. rewrite Hl. simpl.
  apply load_loop_accounts_gen in Hl as (skipped & -> & -> & Hlen & Hsk).
  simpl in *. split_and!; done.
Qed.

End Accounting.

Lemma load_tasks_accounts_witness :
  tasks (load_tasks t1200
           (fresh (JSON (PList [to_dict buy_milk; untitled; to_dict call_bank])) true))
    = [buy_milk; call_bank] /\
  stdout (load_tasks t1200
            (fresh (JSON (PList [to_dict buy_milk; untitled; to_dict call_bank])) true))
    = [ErrorLoadingTask (KeyError "title")].
Proof.
  destruct (load_tasks_accounts t1200
    (fresh (JSON (PList [to_dict buy_milk; untitled; to_dict call_bank])) true)
    [to_dict buy_milk; untitled; to_dict call_bank]
    [buy_milk; call_bank] [ErrorLoadingTask (KeyError "title")]
    eq_refl eq_refl) as (Ht & Ho & _).
  exact (conj Ht Ho).
Defined.

(** ** What every step keeps *)

Section Steps.
Context `{DatetimeLib}.

Lemma running_save_tasks s : _running (save_tasks s) = _running s.
Proof. unfold save_tasks. by destruct (writable s). Qed.

Lemma step_valid s s' :
  step s s' ->
  Forall (fun task => valid_task task = true) (tasks s) ->
  Forall (fun task => valid_task task = true) (tasks s').
Proof.
  intros Hstep Hs. destruct Hstep; simpl.
  - rewrite tasks_save_tasks. simpl. apply Forall_app. split; [done|].
    constructor; [|constructor]. eapply Task_init_valid. eassumption.
  - by apply remove_task_Forall.
  - apply toggle_task_completion_Forall; [|done].
    intros task' Hv. unfold toggled. by rewrite valid_task_set_completed.
  - by apply load_tasks_Forall.
  - by rewrite tasks_save_tasks.
  - unfold check_reminders. by destruct (_running s).
  - unfold stop. by rewrite tasks_save_tasks.
Qed.

Lemma writable_save_tasks s : writable (save_tasks s) = writable s.
Proof. unfold save_tasks. by destruct (writable s) eqn:Hw. Qed.

Lemma step_writable s s' : step s s' -> writable s' = writable s.
Proof.
  intros Hstep. destruct Hstep; simpl.
  - by rewrite writable_save_tasks.
  - unfold remove_task.
    destruct ((0 <=? index) && (index <? Z.of_nat (length (tasks s))));
      [|done].
    destruct (list_delitem (tasks s) index); simpl; [|done].
    by rewrite writable_save_tasks.
  - unfold toggle_task_completion.
    destruct ((0 <=? index) && (index <? Z.of_nat (length (tasks s))));
      [|done].
    destruct (toggle_at (tasks s) index); simpl; [|done].
    by rewrite writable_save_tasks.
  - unfold load_tasks. destruct (data_file s) as [| | |data]; simpl; try done.
    + by rewrite writable_save_tasks.
    + destruct (py_iter data) as [items|]; simpl; [|done].
      by destruct (load_loop now items [] []) as [[l|e] out].
  - by rewrite writable_save_tasks.
  - unfold check_reminders. by destruct (_running s).
  - unfold stop. by rewrite writable_save_tasks.
Qed.

Lemma TaskManager_init_valid now file can_write :
  Forall (fun task => valid_task task = true)
    (tasks (TaskManager_init now file can_write)).
Proof.
  unfold TaskManager_init. simpl. apply load_tasks_Forall; [done|].
  simpl. constructor.
Qed.

Lemma rtc_step_valid s s' :
  rtc step s s' ->
  Forall (fun task => valid_task task = true) (tasks s) ->
  Forall (fun task => valid_task task = true) (tasks s').
Proof.
  induction 1 as [s|s1 s2 s3 Hstep _ IH]; [done|].
  intros H1. apply IH. by eapply step_valid.
Qed.

(** X4. In every state a manager can get into, from its construction on
    whatever file through any sequence of calls, every task has a stripped
    title that is not empty, a stripped description and one of the three
    priorities: only the constructor sets these fields, and it normalizes
    them. *)
Theorem reachable_tasks_valid now file can_write s :
  rtc step (TaskManager_init now file can_write) s ->
  Forall (fun task =>
            strip (title task) = title task /\ title task <> "" /\
            strip (description task) = description task /\
            priority task ∈ valid_priorities) (tasks s).
Proof.
  intros Hreach.
  eapply Forall_impl.
  - eapply rtc_step_valid; [exact Hreach|apply TaskManager_init_valid].
  - intros task Hv. by apply valid_task_spec.
Qed.

End Steps.

Lemma reachable_tasks_valid_witness :
  rtc step (TaskManager_init t1200 Missing true)
           (add_task buy_milk (TaskManager_init t1200 Missing true)).2 /\
  Forall (fun task =>
            strip (title task) = title task /\ title task <> "" /\
            strip (description task) = description task /\
            priority task ∈ valid_priorities)
    (tasks (add_task buy_milk (TaskManager_init t1200 Missing true)).2).
Proof.
  assert (rtc step (TaskManager_init t1200 Missing true)
            (add_task buy_milk (TaskManager_init t1200 Missing true)).2) as Hr.
  { apply rtc_once.
    apply (step_add t0900 (PStr " Buy milk ") (PStr " 2 litres") (Some t1800)
             (PStr "HIGH") (PBool true) (Some t1000)).
    reflexivity. }
  split; [exact Hr|].
  exact (reachable_tasks_valid t1200 Missing true _ Hr).
Defined.

(** ** The file stays in step with the store *)

Section InStep.
Context `{DatetimeLib} `{!DatetimeLaws}.

Lemma step_in_step s s' :
  step s s' ->
  writable s = true ->
  Forall (fun task => valid_task task = true) (tasks s) ->
  data_file s = JSON (serialize (tasks s)) ->
  data_file s' = JSON (serialize (tasks s')).
Proof.
  intros Hstep Hw Hv Hf. destruct Hstep; simpl.
  - by rewrite data_file_save_tasks, tasks_save_tasks.
  - destruct (decide (0 <= index < Z.of_nat (length (tasks s)))) as [Hi|Hi].
    + rewrite remove_task_in_range by done. simpl.
      by rewrite data_file_save_tasks, tasks_save_tasks.
    + by rewrite remove_task_out_of_range.
  - destruct (decide (0 <= index < Z.of_nat (length (tasks s)))) as [Hi|Hi].
    + destruct (lookup_in_range (tasks s) index Hi) as [task' Htask].
      rewrite (toggle_task_completion_in_range index s task') by (done || lia).
      simpl. by rewrite data_file_save_tasks, tasks_save_tasks.
    + by rewrite toggle_task_completion_out_of_range.
  - by rewrite (load_tasks_serialized now s (tasks s)).
  - by rewrite data_file_save_tasks, tasks_save_tasks.
  - unfold check_reminders. by destruct (_running s).
  - unfold stop. by rewrite data_file_save_tasks, tasks_save_tasks.
Qed.

(** X5. Once the file holds the serialization of the store, it does so after
    every further call, whichever it is, as long as writes are accepted: no
    call changes the store without saving it, and loading such a file gives
    the store it was written from. *)
Theorem file_stays_in_step s s' :
  rtc step s s' ->
  writable s = true ->
  Forall (fun task => valid_task task = true) (tasks s) ->
  data_file s = JSON (serialize (tasks s)) ->
  data_file s' = JSON (serialize (tasks s')).
Proof.
  induction 1 as [s|s1 s2 s3 Hstep _ IH]; [done|].
  intros Hw Hv Hf. apply IH.
  - by rewrite (step_writable _ _ Hstep).
  - by eapply step_valid.
  - by eapply step_in_step.
Qed.

(** X6. Stopping a manager and constructing a new one on the file it leaves
    gives the same tasks in the same order, completion included, and prints
    nothing, provided the write is accepted. *)
Theorem stop_then_restart now can_write s :
  writable s = true ->
  Forall (fun task => valid_task task = true) (tasks s) ->
  _running (stop s) = false /\
  data_file (stop s) = JSON (serialize (tasks s)) /\
  tasks (TaskManager_init now (data_file (stop s)) can_write) = tasks s /\
  stdout (TaskManager_init now (data_file (stop s)) can_write) = [] /\
  _running (TaskManager_init now (data_file (stop s)) can_write) = true.
Proof.
  intros Hw Hv.
  assert (data_file (stop s) = JSON (serialize (tasks s))) as Hf.
  { unfold stop. by rewrite data_file_save_tasks. }
  split_and!.
  - unfold stop. by rewrite running_save_tasks.
  - done.
  - rewrite Hf. unfold TaskManager_init.
    by rewrite (load_tasks_serialized _ _ (tasks s)).
  - rewrite Hf. unfold TaskManager_init.
    by rewrite (load_tasks_serialized _ _ (tasks s)).
  - done.
Qed.

End InStep.

Lemma file_stays_in_step_witness :
  rtc step (holding [buy_milk; call_bank])
           (toggle_task_completion 0 (holding [buy_milk; call_bank])).2 /\
  data_file (toggle_task_completion 0 (holding [buy_milk; call_bank])).2
  = JSON (serialize (tasks (toggle_task_completion 0 (holding [buy_milk; call_bank])).2)).
Proof.
  assert (rtc step (holding [buy_milk; call_bank])
            (toggle_task_completion 0 (holding [buy_milk; call_bank])).2) as Hr.
  { apply rtc_once. apply step_toggle. }
  split; [exact Hr|].
  apply (file_stays_in_step (holding [buy_milk; call_bank]) _ Hr).
  - reflexivity.
  - repeat constructor.
  - reflexivity.
Defined.

Lemma stop_then_restart_witness :
  writable (holding [buy_milk; call_bank]) = true /\
  tasks (TaskManager_init t1800 (data_file (stop (holding [buy_milk; call_bank]))) true)
  = [buy_milk; call_bank].
Proof.
  split; [reflexivity|].
  refine (proj1 (proj2 (proj2 (stop_then_restart t1800 true
            (holding [buy_milk; call_bank]) _ _)))).
  - reflexivity.
  - repeat constructor.
Defined.

(** ** Calls on the store, one after another *)

Section Composition.
Context `{DatetimeLib}.

Lemma delete_last {A} (l : list A) (x : A) : delete (length l) (l ++ [x]) = l.
Proof. induction l as [|y l IH]; simpl; [done|]. by rewrite IH. Qed.

(** X7. Removing the last position right after [add_task] undoes the
    addition: the call returns true, the store is the one before the
    addition and, the write being accepted, so is the file. *)
Theorem add_then_remove_last task s :
  let added := (add_task task s).2 in
  let index := Z.of_nat (length (tasks s)) in
  (remove_task index added).1 = true /\
  tasks (remove_task index added).2 = tasks s /\
  (writable s = true ->
   data_file (remove_task index added).2 = JSON (serialize (tasks s))).
Proof.
  simpl.
  assert (tasks (add_task task s).2 = tasks s ++ [task]) as Ht.
  { unfold add_task. simpl. by rewrite tasks_save_tasks. }
  rewrite remove_task_in_range; simpl.
  - rewrite !tasks_save_tasks. simpl. rewrite Nat2Z.id, delete_last.
    split_and!; [done|done|].
    intros Hw. rewrite data_file_save_tasks; [done|]. simpl.
    by rewrite writable_save_tasks.
  - rewrite tasks_save_tasks. simpl. rewrite length_app. simpl. lia.
Qed.

Lemma filter_sublist {A} (f : A -> bool) (l : list A) :
  List.filter f l `sublist_of` l.
Proof.
  induction l as [|x l IH]; simpl; [done|].
  destruct (f x); by constructor.
Qed.

Lemma filter_length_insert {A} (f : A -> bool) (l : list A) i x y :
  l !! i = Some x ->
  (length (List.filter f (<[i:=y]> l)) + (if f x then 1 else 0)
   = length (List.filter f l) + (if f y then 1 else 0))%nat.
Proof.
  revert i. induction l as [|z l IH]; intros [|i]; simpl; try done.
  - intros [= ->]. destruct (f x), (f y); simpl; lia.
  - intros Hi. specialize (IH i Hi). destruct (f z); simpl; lia.
Qed.

(** X8. [get_tasks] with a true argument returns the store; with a false
    one it returns the tasks that are not completed and no others, in the
    order of the store.  With the index in range, [toggle_task_completion]
    makes that list one shorter if the task was not completed and one longer
    if it was. *)
Theorem get_tasks_views index s :
  get_tasks true s = tasks s /\
  get_tasks false s `sublist_of` tasks s /\
  (forall task,
     task ∈ get_tasks false s <->
     task ∈ tasks s /\ truthy (completed task) = false) /\
  (forall task,
     0 <= index -> tasks s !! Z.to_nat index = Some task ->
     length (get_tasks false (toggle_task_completion index s).2)
     = if truthy (completed task)
       then S (length (get_tasks false s))
       else pred (length (get_tasks false s))).
Proof.
  split_and!.
  - done.
  - apply filter_sublist.
  - intros task. unfold get_tasks.
    rewrite !list_elem_of_In, filter_In, negb_true_iff. done.
  - intros task Hi Htask.
    rewrite (toggle_task_completion_in_range index s task) by done.
    unfold get_tasks. simpl. rewrite tasks_save_tasks. simpl.
    pose proof (filter_length_insert
                  (fun t => negb (truthy (completed t)))
                  (tasks s) (Z.to_nat index) task (toggled task) Htask) as Hlen.
    simpl in Hlen. rewrite negb_involutive in Hlen.
    destruct (truthy (completed task)); simpl in Hlen; lia.
Qed.

(** X9. [stop] clears the running flag and saves; a poll after it returns
    at once, so that nothing is printed and nothing changes.  A poll of a
    running manager only prints: the tasks, the file and the flag are as
    before. *)
Theorem stop_silences_poll now s :
  _running (stop s) = false /\
  tasks (stop s) = tasks s /\
  check_reminders now (stop s) = stop s /\
  tasks (check_reminders now s) = tasks s /\
  data_file (check_reminders now s) = data_file s /\
  _running (check_reminders now s) = _running s.
Proof.
  assert (_running (stop s) = false) as Hr.
  { unfold stop. by rewrite running_save_tasks. }
  split_and!; try done.
  - unfold stop. by rewrite tasks_save_tasks.
  - unfold check_reminders. by rewrite Hr.
  - unfold check_reminders. by destruct (_running s).
  - unfold check_reminders. by destruct (_running s).
  - unfold check_reminders. by destruct (_running s) eqn:Hrun.
Qed.

(** X10. [toggle_task_completion] with an index that is negative or not
    below the length returns false and leaves everything as it is: nothing
    is toggled, written or printed, and a negative index does not count from
    the end. *)
Theorem toggle_task_completion_refuses index s :
  index < 0 \/ Z.of_nat (length (tasks s)) <= index ->
  toggle_task_completion index s = (false, s).
Proof.
  intros Hi. apply toggle_task_completion_out_of_range. lia.
Qed.


(** X12. A manager constructed where there is no file starts with an empty
    store, prints nothing and creates no file; the first [add_task] then
    writes a file that holds the one task. *)
Theorem first_run now can_write task :
  tasks (TaskManager_init now Missing can_write) = [] /\
  stdout (TaskManager_init now Missing can_write) = [] /\
  data_file (TaskManager_init now Missing can_write) = Missing /\
  _running (TaskManager_init now Missing can_write) = true /\
  (can_write = true ->
   data_file (add_task task (TaskManager_init now Missing can_write)).2
   = JSON (PList [to_dict task])).
Proof.
  split_and!; try done. by intros ->.
Qed.

End Composition.

Lemma get_tasks_views_witness :
  length (get_tasks false
            (toggle_task_completion 0 (holding [buy_milk; call_bank])).2) = 0%nat /\
  length (get_tasks false
            (toggle_task_completion 1 (holding [buy_milk; call_bank])).2) = 2%nat.
Proof.
  split.
  - exact (proj2 (proj2 (proj2 (get_tasks_views 0 (holding [buy_milk; call_bank]))))
             buy_milk ltac:(lia) eq_refl).
  - exact (proj2 (proj2 (proj2 (get_tasks_views 1 (holding [buy_milk; call_bank]))))
             call_bank ltac:(lia) eq_refl).
Defined.

Lemma toggle_task_completion_refuses_witness :
  toggle_task_completion (-1) (holding [buy_milk; call_bank])
  = (false, holding [buy_milk; call_bank]) /\
  toggle_task_completion 2 (holding [buy_milk; call_bank])
  = (false, holding [buy_milk; call_bank]).
Proof.
  split.
  - apply toggle_task_completion_refuses. left. lia.
  - apply toggle_task_completion_refuses. right. simpl. lia.
Defined.


Lemma first_run_witness :
  data_file (add_task buy_milk (TaskManager_init t1200 Missing true)).2
  = JSON (PList [to_dict buy_milk]).
Proof.
  exact (proj2 (proj2 (proj2 (proj2 (first_run t1200 true buy_milk)))) eq_refl).
Defined.

(** * Properties of the command loop *)

(** ** Reading a task from the console *)

Section Reading.
Context `{DatetimeLib} `{!ConsoleLib}.

Lemma io_bind_unfold {A B} (m : io A) (f : A -> io B) w :
  (m ≫= f) w = match m w with
               | (Returns a, w') => f a w'
               | (Raises e, w') => (Raises e, w')
               end.
Proof. done. Qed.

Lemma read_title_reads_only :
  reads_only (fun title => strip title = title /\ title <> "") read_title.
Proof.
  intros lines. induction lines as [|entered rest IH]; intros out; simpl.
  - done.
  - destruct (String.eqb_spec (strip entered) "") as [Hb|Hb]; simpl.
    + specialize (IH (out ++ [Prompt title_prompt; TitleCannotBeEmpty])).
      destruct (read_title rest _) as [[[title|e] rest'] out']; [|done].
      destruct IH as [Ht Hs]. split; [done|]. by apply suffix_cons_r.
    + split_and!; [apply strip_idem|done|]. by apply suffix_cons_r.
Qed.

Lemma read_due_date_reads_only now :
  reads_only (fun _ => True) (read_due_date now).
Proof.
  intros lines. induction lines as [|entered rest IH]; intros out; simpl.
  - done.
  - destruct (String.eqb (strip entered) ""); simpl.
    + split; [done|]. by apply suffix_cons_r.
    + destruct (strptime (strip entered)) as [due|].
      * split; [done|]. by apply suffix_cons_r.
      * specialize (IH (out ++ [Prompt due_date_prompt; InvalidDateFormat])).
        destruct (read_due_date now rest _) as [[[due|e] rest'] out']; [|done].
        destruct IH as [_ Hs]. split; [done|]. by apply suffix_cons_r.
Qed.

Lemma read_priority_reads_only :
  reads_only (fun priority => priority ∈ valid_priorities) read_priority.
Proof.
  intros lines. induction lines as [|entered rest IH]; intros out; simpl.
  - done.
  - destruct (String.eqb_spec (strip (lower entered)) "") as [Hb|Hb]; simpl.
    + split; [|by apply suffix_cons_r].
      unfold valid_priorities. rewrite !elem_of_cons. auto.
    + case_bool_decide as Hp.
      * split; [done|]. by apply suffix_cons_r.
      * specialize (IH (out ++ [Prompt priority_prompt; InvalidPriority])).
        destruct (read_priority rest _) as [[[priority|e] rest'] out']; [|done].
        destruct IH as [Hv Hs]. split; [done|]. by apply suffix_cons_r.
Qed.

Lemma read_reminder_time_reads_only now due_date :
  reads_only (fun at_time => is_Some at_time) (read_reminder_time now due_date).
Proof.
  intros lines. induction lines as [|entered rest IH]; intros out; simpl.
  - done.
  - destruct (strptime (strip entered)) as [at_time|].
    + split; [by eexists|]. by apply suffix_cons_r.
    + specialize (IH (out ++ [Prompt reminder_time_prompt; InvalidDateFormat])).
      destruct (read_reminder_time now due_date rest _)
        as [[[at_time|e] rest'] out']; [|done].
      destruct IH as [Hv Hs]. split; [done|]. by apply suffix_cons_r.
Qed.

Lemma only_reads_run_reads {A} (P : A -> Prop) (loop : reads A) :
  reads_only P loop -> only_reads P (run_reads loop).
Proof.
  intros Hloop w. unfold run_reads. specialize (Hloop (stdin w) (screen w)).
  destruct (loop (stdin w) (screen w)) as [[[a|e] rest] out]; simpl; tauto.
Qed.

Lemma only_reads_input prompt : only_reads (fun _ => True) (input prompt).
Proof.
  intros w. unfold input. destruct (stdin w) as [|entered rest]; simpl.
  - done.
  - split_and!; try done. by apply suffix_cons_r.
Qed.

Lemma only_reads_mret {A} (P : A -> Prop) (a : A) :
  P a -> only_reads P (mret a).
Proof. intros Ha w. simpl. done. Qed.

Lemma only_reads_bind {A B} (P : A -> Prop) (Q : B -> Prop)
    (m : io A) (f : A -> io B) :
  only_reads P m -> (forall a, P a -> only_reads Q (f a)) ->
  only_reads Q (m ≫= f).
Proof.
  intros Hm Hf w. rewrite io_bind_unfold. specialize (Hm w).
  destruct (m w) as [[a|e] w1]; [|done].
  destruct Hm as (Ha & Hman & Hin). specialize (Hf a Ha w1).
  destruct (f a w1) as [[b|e] w2].
  - destruct Hf as (Hb & Hman' & Hin'). split_and!; [done|congruence|].
    by etrans.
  - destruct Hf as (He & Hman' & Hin'). split_and!; [done|congruence|done].
Qed.

Lemma get_task_input_only_reads now :
  only_reads (prompted now) (get_task_input now).
Proof.
  unfold get_task_input.
  eapply only_reads_bind;
    [apply only_reads_run_reads, read_title_reads_only|].
  intros title [Hstrip Hne].
  eapply only_reads_bind; [apply only_reads_input|]. intros entered _.
  eapply only_reads_bind;
    [apply only_reads_run_reads, read_due_date_reads_only|].
  intros due_date _.
  eapply only_reads_bind;
    [apply only_reads_run_reads, read_priority_reads_only|].
  intros priority Hp.
  eapply only_reads_bind; [apply only_reads_input|]. intros answer _.
  eapply (only_reads_bind
            (fun at_time => String.eqb (strip (lower answer)) "y" = true
                            <-> is_Some at_time)).
  - destruct (String.eqb (strip (lower answer)) "y").
    + intros w.
      pose proof (only_reads_run_reads _ _
                    (read_reminder_time_reads_only now due_date) w) as Hr.
      destruct (run_reads (read_reminder_time now due_date) w)
        as [[at_time|e] w']; [|done].
      destruct Hr as (Hs & ? & ?). split_and!; done.
    + apply only_reads_mret. split; [done|]. by intros [? [=]].
  - intros at_time Hat.
    pose proof (Task_init_text now title (strip entered) due_date
                  (Some priority)
                  (PBool (String.eqb (strip (lower answer)) "y")) at_time)
      as Hinit.
    simpl in Hinit. rewrite Hinit by (by rewrite Hstrip). simpl.
    apply only_reads_mret. unfold prompted. split_and!; try done.
    eexists _, _, _, _, _, _. apply Hinit. by rewrite Hstrip.
Qed.

(** X13. [get_task_input] either returns a task or, the input being used
    up, raises [EOFError]: the loops have made sure of what the constructor
    checks, which therefore never raises.  The task returned has a stripped
    title that is not empty and a valid priority, is not completed, is
    stamped with the time of the call, and has a reminder time exactly when
    its reminder flag is set.  The manager is not touched, and the lines
    left to read are the last ones of those given. *)
Theorem get_task_input_safe now w :
  match get_task_input now w with
  | (Returns task, w') =>
      valid_task task = true /\ completed task = PBool false /\
      created_at task = now /\
      (reminder task = true <-> is_Some (reminder_time task)) /\
      manager w' = manager w /\ stdin w' `suffix_of` stdin w
  | (Raises e, w') =>
      e = EOFError /\ manager w' = manager w /\ stdin w' = []
  end.
Proof.
  pose proof (get_task_input_only_reads now w) as Hw.
  destruct (get_task_input now w) as [[task|e] w']; [|done].
  destruct Hw as (((ti & de & du & pr & re & rt & Hinit) & ? & ? & ?) & ? & ?).
  split_and!; try done. by eapply Task_init_valid.
Qed.

End Reading.

(** ** One turn of the loop *)

(** Run the console computation of the goal as far as it goes. *)
Ltac run_io :=
  unfold command, choice_1, choice_2, choice_3, choice_4;
  unfold try_except, print_menu, except_ValueError, int, eval, raise, ask,
    say, input, call, mbind, io_bind, mret, io_ret;
  cbn -[remove_task toggle_task_completion stop get_task_input strip lower
        show_tasks].

Section Turn.
Context `{DatetimeLib} `{!ConsoleLib}.

Lemma drop_all_stdout (s : state) : drop (length (stdout s)) (stdout s) = [].
Proof. by rewrite drop_all. Qed.

(** X14. A choice other than 1 to 5 changes nothing: the turn reads that
    one line, says that the choice is invalid and goes on, the manager being
    as before. *)
Theorem command_invalid_choice now w choice rest :
  stdin w = choice :: rest ->
  strip choice ∉ ["1"; "2"; "3"; "4"; "5"] ->
  (command now w).1 = Returns false /\
  manager (command now w).2 = manager w /\
  stdin (command now w).2 = rest /\
  last (screen (command now w).2) = Some InvalidChoice.
Proof.
  intros Hin Hc. rewrite !not_elem_of_cons in Hc.
  destruct Hc as (H1 & H2 & H3 & H4 & H5 & _).
  run_io. rewrite Hin. simpl.
  rewrite !(proj2 (String.eqb_neq _ _)) by done. simpl.
  split_and!; try done. by rewrite last_snoc.
Qed.

(** X15. Choice 5 leaves the loop after [stop]: the running flag is cleared
    and the store saved, and no further line is read. *)
Theorem command_exit now w choice rest :
  stdin w = choice :: rest ->
  strip choice = "5" ->
  (command now w).1 = Returns true /\
  manager (command now w).2 = stop (manager w) /\
  _running (manager (command now w).2) = false /\
  stdin (command now w).2 = rest /\
  (forall clock k fuel,
     main_loop clock k (S fuel) w = (Left, (command (clock k) w).2)).
Proof.
  intros Hin Hc.
  assert (forall now', command now' w
            = (Returns true,
               {| manager := stop (manager w); stdin := rest;
                  screen := (command now' w).2.(screen) |})) as Hrun.
  { intros now'. run_io. rewrite Hin. simpl. rewrite Hc. simpl. done. }
  rewrite (Hrun now). simpl. split_and!; try done.
  - unfold stop. by rewrite running_save_tasks.
  - intros clock k fuel. simpl. by rewrite (Hrun (clock k)).
Qed.

(** X16. With no task in the store, choices 3 and 4 ask for no number: the
    turn reads the choice only, says that there is nothing to update or to
    delete, and the manager is as before. *)
Theorem command_nothing_to_change now w choice rest :
  stdin w = choice :: rest ->
  tasks (manager w) = [] ->
  strip choice = "3" \/ strip choice = "4" ->
  (command now w).1 = Returns false /\
  manager (command now w).2 = manager w /\
  stdin (command now w).2 = rest /\
  last (screen (command now w).2)
  = Some (if String.eqb (strip choice) "3" then NoTasksToUpdate
          else NoTasksToDelete).
Proof.
  intros Hin Ht Hc.
  run_io. rewrite Hin. simpl.
  destruct Hc as [-> | ->]; simpl; rewrite Ht; simpl;
    (split_and!; try done; by rewrite last_snoc).
Qed.

Lemma command_at_end_of_input now w :
  stdin w = [] ->
  command now w
  = (Returns false,
     {| manager := manager w; stdin := [];
        screen := screen w ++ turn_at_end_of_input |}).
Proof.
  intros Hin. run_io. rewrite Hin. simpl. by rewrite <- !app_assoc.
Qed.

(** X17. Once the input is at its end the loop goes on for ever: every
    turn prints the menu, the prompt and the error of [input], changes
    nothing in the manager and starts again, so that the loop is never left
    however many turns are taken. *)
Theorem main_loop_at_end_of_input clock k fuel w :
  stdin w = [] ->
  main_loop clock k fuel w
  = (Looping,
     {| manager := manager w; stdin := [];
        screen := screen w ++ concat (replicate fuel turn_at_end_of_input) |}).
Proof.
  revert k w. induction fuel as [|fuel IH]; intros k w Hin.
  - simpl. rewrite app_nil_r. destruct w. simpl in *. by subst.
  - cbn [main_loop]. rewrite command_at_end_of_input by done.
    rewrite IH by done. cbn [manager stdin screen replicate concat].
    by rewrite <- app_assoc.
Qed.



End Turn.

(** ** The choices of the menu *)

Section Choices.
Context `{DatetimeLib} `{!ConsoleLib}.

Lemma omap_header_show_task i task :
  omap header (show_task i task) = [(Z.of_nat i + 1, title task)].
Proof.
  unfold show_task.
  destruct (truthy (PStr (description task))), (due_date task),
    (reminder task), (reminder_time task); reflexivity.
Qed.

Lemma omap_header_show_tasks i l :
  omap header (show_tasks i l)
  = imap (fun j task => (Z.of_nat (i + j) + 1, title task)) l.
Proof.
  revert i. induction l as [|task l IH]; intros i; [done|].
  cbn [show_tasks]. rewrite omap_app, omap_header_show_task, IH. simpl.
  rewrite Nat.add_0_r. f_equal. apply imap_ext. intros j x _. simpl.
  by rewrite Nat.add_succ_r.
Qed.

(** X19. Choice 2 changes nothing in the manager and reads no further
    line.  It shows every task of the store, in the order of the store,
    under the numbers 1, 2, 3, ... *)
Theorem command_view now w choice rest :
  stdin w = choice :: rest ->
  strip choice = "2" ->
  (command now w).1 = Returns false /\
  manager (command now w).2 = manager w /\
  stdin (command now w).2 = rest /\
  omap header (drop (length (screen w)) (screen (command now w).2))
  = imap (fun i task => (Z.of_nat i + 1, title task)) (tasks (manager w)).
Proof.
  intros Hin Hc. run_io. rewrite Hin. cbn. rewrite Hc. cbn -[show_tasks].
  destruct (tasks (manager w)) as [|task l] eqn:Ht; cbn -[show_tasks].
  - split_and!; try done.
    rewrite <- !app_assoc, drop_app_length. done.
  - split_and!; try done.
    rewrite <- !app_assoc, drop_app_length. cbn -[show_tasks].
    by rewrite omap_header_show_tasks.
Qed.

(** A turn that takes choice 4 and reads a number. *)
Lemma command_delete now w choice entered rest number :
  stdin w = choice :: entered :: rest ->
  strip choice = "4" ->
  tasks (manager w) <> [] ->
  py_int entered = Some number ->
  (command now w).1 = Returns false /\
  manager (command now w).2 = (remove_task (number - 1) (manager w)).2 /\
  stdin (command now w).2 = rest /\
  last (screen (command now w).2)
  = Some (if (remove_task (number - 1) (manager w)).1 then TaskDeleted
          else InvalidTaskNumber).
Proof.
  intros Hin Hc Ht Hn. run_io. rewrite Hin. cbn. rewrite Hc. cbn.
  destruct (tasks (manager w)) as [|task l] eqn:Htasks; [done|]. cbn.
  rewrite Hn. cbn.
  destruct ((remove_task (number - 1) (manager w)).1); cbn;
    rewrite last_snoc; done.
Qed.

Lemma command_toggle now w choice entered rest number :
  stdin w = choice :: entered :: rest ->
  strip choice = "3" ->
  tasks (manager w) <> [] ->
  py_int entered = Some number ->
  (command now w).1 = Returns false /\
  manager (command now w).2
  = (toggle_task_completion (number - 1) (manager w)).2 /\
  stdin (command now w).2 = rest /\
  last (screen (command now w).2)
  = Some (if (toggle_task_completion (number - 1) (manager w)).1
          then TaskStatusUpdated else InvalidTaskNumber).
Proof.
  intros Hin Hc Ht Hn. run_io. rewrite Hin. cbn. rewrite Hc. cbn.
  destruct (tasks (manager w)) as [|task l] eqn:Htasks; [done|]. cbn.
  rewrite Hn. cbn.
  destruct ((toggle_task_completion (number - 1) (manager w)).1); cbn;
    rewrite last_snoc; done.
Qed.

(** X20. Choice 4 followed by a line that [int] reads as [number]: if
    [number] is one of 1, ..., the length of the store, the task shown under
    that number (the one at position [number - 1]) is removed and the
    others stay in their order; for any other number, 0 and the negative
    ones included, the manager is as before and the number is said to be
    invalid.  Both lines are read and the loop goes on. *)
Theorem command_delete_by_number now w choice entered rest number :
  stdin w = choice :: entered :: rest ->
  strip choice = "4" ->
  tasks (manager w) <> [] ->
  py_int entered = Some number ->
  (command now w).1 = Returns false /\
  stdin (command now w).2 = rest /\
  (1 <= number <= Z.of_nat (length (tasks (manager w))) ->
   tasks (manager (command now w).2)
   = delete (Z.to_nat (number - 1)) (tasks (manager w)) /\
   last (screen (command now w).2) = Some TaskDeleted) /\
  (~ 1 <= number <= Z.of_nat (length (tasks (manager w))) ->
   manager (command now w).2 = manager w /\
   last (screen (command now w).2) = Some InvalidTaskNumber).
Proof.
  intros Hin Hc Ht Hn.
  destruct (command_delete now w choice entered rest number Hin Hc Ht Hn)
    as (Hret & Hman & Hrest & Hlast).
  split_and!; try done.
  - intros Hr. rewrite Hman, Hlast.
    rewrite remove_task_in_range by lia. simpl.
    by rewrite tasks_save_tasks.
  - intros Hr. rewrite Hman, Hlast.
    rewrite remove_task_out_of_range by lia. done.
Qed.

(** X21. Choice 3 followed by a line that [int] reads as [number]: if
    [number] is one of 1, ..., the length of the store, the completion of
    the task at position [number - 1] is flipped and nothing else in the
    store changes; for any other number the manager is as before and the
    number is said to be invalid. *)
Theorem command_toggle_by_number now w choice entered rest number :
  stdin w = choice :: entered :: rest ->
  strip choice = "3" ->
  tasks (manager w) <> [] ->
  py_int entered = Some number ->
  (command now w).1 = Returns false /\
  stdin (command now w).2 = rest /\
  (forall task,
     1 <= number ->
     tasks (manager w) !! Z.to_nat (number - 1) = Some task ->
     tasks (manager (command now w).2)
     = <[Z.to_nat (number - 1) :=
           set_completed (PBool (negb (truthy (completed task)))) task]>
         (tasks (manager w)) /\
     last (screen (command now w).2) = Some TaskStatusUpdated) /\
  (~ 1 <= number <= Z.of_nat (length (tasks (manager w))) ->
   manager (command now w).2 = manager w /\
   last (screen (command now w).2) = Some InvalidTaskNumber).
Proof.
  intros Hin Hc Ht Hn.
  destruct (command_toggle now w choice entered rest number Hin Hc Ht Hn)
    as (Hret & Hman & Hrest & Hlast).
  split_and!; try done.
  - intros task Hpos Htask. rewrite Hman, Hlast.
    rewrite (toggle_task_completion_in_range _ _ task) by (done || lia).
    simpl. by rewrite tasks_save_tasks.
  - intros Hr. rewrite Hman, Hlast.
    rewrite toggle_task_completion_out_of_range by lia. done.
Qed.

(** X22. Choice 3 or 4 followed by a line that [int] rejects changes
    nothing: the manager is as before, a valid number is asked for, both
    lines are read and the loop goes on. *)
Theorem command_not_a_number now w choice entered rest :
  stdin w = choice :: entered :: rest ->
  strip choice = "3" \/ strip choice = "4" ->
  tasks (manager w) <> [] ->
  py_int entered = None ->
  (command now w).1 = Returns false /\
  manager (command now w).2 = manager w /\
  stdin (command now w).2 = rest /\
  last (screen (command now w).2) = Some PleaseEnterValidNumber.
Proof.
  intros Hin Hc Ht Hn. run_io. rewrite Hin. cbn.
  destruct Hc as [Hc|Hc]; rewrite Hc; cbn;
    (destruct (tasks (manager w)) as [|task l] eqn:Htasks; [done|]);
    cbn; rewrite Hn; cbn;
    (split_and!; try done; by rewrite last_snoc).
Qed.

End Choices.

(** ** Adding a task from the menu *)

Section Adding.
Context `{DatetimeLib} `{!ConsoleLib}.

Lemma read_title_blanks blanks title rest out :
  Forall (fun entered => strip entered = "") blanks ->
  strip title <> "" ->
  read_title (blanks ++ title :: rest) out
  = (Returns (strip title), rest,
     out ++ concat (replicate (length blanks)
                      [Prompt title_prompt; TitleCannotBeEmpty])
         ++ [Prompt title_prompt]).
Proof.
  intros Hb Ht. revert out.
  induction Hb as [|blank blanks Hblank _ IH]; intros out; simpl.
  - by rewrite (proj2 (String.eqb_neq _ _) Ht).
  - rewrite Hblank. simpl. rewrite IH. by rewrite <- !app_assoc.
Qed.

(** X23. The dialogue of [get_task_input] in which only a title and a
    description are given: blank lines for the title are asked again, one
    error line each; an empty line for the due date means none; an empty
    line for the priority means ["medium"] and one of the three priorities,
    in any case, means itself; any answer but [y] means no reminder.  The
    task returned has these fields, stripped, and the lines after the
    dialogue are left to be read. *)
Theorem get_task_input_dialogue now w blanks title description due priority
    answer rest :
  stdin w = blanks ++ title :: description :: due :: priority :: answer :: rest ->
  Forall (fun entered => strip entered = "") blanks ->
  strip title <> "" ->
  strip due = "" ->
  strip (lower priority) ∈ "" :: valid_priorities ->
  strip (lower answer) <> "y" ->
  (get_task_input now w).1
  = Returns {| title := strip title; description := strip description;
               due_date := None;
               priority := if String.eqb (strip (lower priority)) ""
                           then "medium" else strip (lower priority);
               reminder := false; reminder_time := None;
               completed := PBool false; created_at := now |} /\
  stdin (get_task_input now w).2 = rest /\
  manager (get_task_input now w).2 = manager w /\
  screen (get_task_input now w).2
  = screen w
    ++ concat (replicate (length blanks)
                 [Prompt title_prompt; TitleCannotBeEmpty])
    ++ [Prompt title_prompt; Prompt description_prompt;
        Prompt due_date_prompt; Prompt priority_prompt;
        Prompt reminder_prompt].
Proof.
  intros Hin Hb Ht Hd Hp Ha.
  unfold get_task_input, run_reads, input, mbind, io_bind.
  rewrite Hin, (read_title_blanks _ _ _ _ Hb Ht).
  cbn -[strip lower Task_init valid_priorities]. rewrite Hd.
  cbn -[strip lower Task_init valid_priorities].
  assert (negb (negb (String.eqb (strip (lower priority)) ""))
          || bool_decide (strip (lower priority) ∈ valid_priorities) = true)
    as ->.
  { apply elem_of_cons in Hp as [-> | Hp]; [done|].
    rewrite bool_decide_true by done. by rewrite orb_true_r. }
  cbn -[strip lower Task_init valid_priorities].
  rewrite (proj2 (String.eqb_neq _ _) Ha).
  cbn -[strip lower Task_init valid_priorities].
  assert (strip (strip title) <> "") as Ht2 by (by rewrite strip_idem).
  pose proof (Task_init_text now (strip title) (strip description) None
                (Some (if negb (String.eqb (strip (lower priority)) "")
                       then strip (lower priority) else "medium"))
                (PBool false) None Ht2) as Hinit.
  cbn -[strip lower Task_init valid_priorities] in Hinit.
  rewrite Hinit, !strip_idem.
  cbn -[strip lower valid_priorities].
  split_and!; try done.
  - do 2 f_equal. apply elem_of_cons in Hp as [Hp | Hp].
    + rewrite Hp. done.
    + rewrite (proj2 (String.eqb_neq _ _)); [|by intros Hq; rewrite Hq in Hp;
        unfold valid_priorities in Hp; rewrite !elem_of_cons, elem_of_nil in Hp;
        destruct Hp as [[=]|[[=]|[[=]|[]]]]].
      simpl. rewrite (lower_valid _ Hp). by rewrite bool_decide_true.
  - by rewrite <- !app_assoc.
Qed.

Lemma command_choice_1 now w choice lines :
  stdin w = choice :: lines ->
  strip choice = "1" ->
  command now w
  = match get_task_input now (after_choice w lines) with
    | (Returns task, w') =>
        (Returns false,
         {| manager := (add_task task (manager w')).2; stdin := stdin w';
            screen := (screen w'
                       ++ map Printed
                            (drop (length (stdout (manager w')))
                               (stdout (add_task task (manager w')).2)))
                      ++ [TaskAdded] |})
    | (Raises e, w') =>
        (Returns false,
         {| manager := manager w'; stdin := stdin w';
            screen := screen w' ++ [ErrorAddingTask e] |})
    end.
Proof.
  intros Hin Hc. run_io. rewrite Hin. cbn. rewrite Hc. cbn.
  unfold after_choice.
  destruct (get_task_input now _) as [[task|e] w']; done.
Qed.

(** X24. Choice 1 with a dialogue that yields a task: the task is appended
    to the store, the store is saved (the file holds it when the write is
    accepted), the lines of the dialogue are read, the addition is
    confirmed and the loop goes on. *)
Theorem command_add_task now w choice lines task w' :
  stdin w = choice :: lines ->
  strip choice = "1" ->
  get_task_input now (after_choice w lines) = (Returns task, w') ->
  (command now w).1 = Returns false /\
  tasks (manager (command now w).2) = tasks (manager w) ++ [task] /\
  stdin (command now w).2 = stdin w' /\
  last (screen (command now w).2) = Some TaskAdded /\
  (writable (manager w) = true ->
   data_file (manager (command now w).2)
   = JSON (serialize (tasks (manager w) ++ [task]))).
Proof.
  intros Hin Hc Hrun.
  pose proof (get_task_input_only_reads now (after_choice w lines)) as Hw.
  rewrite (command_choice_1 now w choice lines Hin Hc), Hrun.
  rewrite Hrun in Hw. destruct Hw as (_ & Hman & _). simpl in Hman.
  cbn -[add_task]. rewrite Hman. unfold add_task. simpl.
  rewrite tasks_save_tasks. simpl.
  split_and!; try done.
  - by rewrite last_snoc.
  - intros Hwr. by rewrite data_file_save_tasks.
Qed.

(** X25. Choice 1 with a dialogue the input ends in: nothing is added and
    nothing written; the manager is as before, the error is printed, no
    line is left and the loop goes on. *)
Theorem command_add_abandoned now w choice lines e w' :
  stdin w = choice :: lines ->
  strip choice = "1" ->
  get_task_input now (after_choice w lines) = (Raises e, w') ->
  e = EOFError /\
  (command now w).1 = Returns false /\
  manager (command now w).2 = manager w /\
  stdin (command now w).2 = [] /\
  last (screen (command now w).2) = Some (ErrorAddingTask EOFError).
Proof.
  intros Hin Hc Hrun.
  pose proof (get_task_input_only_reads now (after_choice w lines)) as Hw.
  rewrite (command_choice_1 now w choice lines Hin Hc), Hrun.
  rewrite Hrun in Hw. destruct Hw as (-> & Hman & Hrest). simpl in Hman.
  simpl. split_and!; try done. by rewrite last_snoc.
Qed.

Lemma command_steps now w :
  rtc step (manager w) (manager (command now w).2).
Proof.
  destruct (stdin w) as [|choice lines] eqn:Hin.
  - by rewrite command_at_end_of_input.
  - destruct (decide (strip choice = "1")) as [Hc|Hc].
    { pose proof (get_task_input_only_reads now (after_choice w lines)) as Hw.
      rewrite (command_choice_1 now w choice lines Hin Hc).
      destruct (get_task_input now (after_choice w lines)) as [[task|e] w'].
      - destruct Hw as (((ti & de & du & pr & re & rt & Hinit) & _) & Hman & _).
        simpl in Hman. cbn -[add_task]. rewrite Hman.
        apply rtc_once. by eapply step_add.
      - destruct Hw as (_ & Hman & _). simpl in *. by rewrite Hman. }
    run_io. rewrite Hin. cbn.
    rewrite (proj2 (String.eqb_neq _ _) Hc). cbn.
    destruct (String.eqb (strip choice) "2"); cbn.
    { by destruct (tasks (manager w)). }
    destruct (String.eqb (strip choice) "3"); cbn.
    { destruct (tasks (manager w)); cbn; [done|].
      destruct lines as [|entered rest]; cbn; [done|].
      destruct (py_int entered) as [number|]; cbn; [|done].
      destruct (toggle_task_completion (number - 1) (manager w)).1 eqn:Hb;
        cbn; apply rtc_once, step_toggle. }
    destruct (String.eqb (strip choice) "4"); cbn.
    { destruct (tasks (manager w)); cbn; [done|].
      destruct lines as [|entered rest]; cbn; [done|].
      destruct (py_int entered) as [number|]; cbn; [|done].
      destruct (remove_task (number - 1) (manager w)).1 eqn:Hb;
        cbn; apply rtc_once, step_remove. }
    destruct (String.eqb (strip choice) "5"); cbn; [|done].
    apply rtc_once, step_stop.
Qed.

Lemma main_loop_steps clock k fuel w :
  rtc step (manager w) (manager (main_loop clock k fuel w).2).
Proof.
  revert k w. induction fuel as [|fuel IH]; intros k w; simpl; [done|].
  pose proof (command_steps (clock k) w) as Hstep.
  destruct (command (clock k) w) as [[[|]|e] w']; simpl in *; try done.
  etrans; [exact Hstep|apply IH].
Qed.

(** X26. However long the program runs and whatever is typed, the loop
    takes the manager from state to state by calls of its methods only, a
    task that is added being one the constructor has built.  So from the
    start of the program on, whatever the file held, every task in the
    store has a stripped title that is not empty, a stripped description
    and one of the three priorities. *)
Theorem session_tasks_valid clock file can_write lines fuel :
  rtc step (TaskManager_init (clock 0%nat) file can_write)
      (manager (main_loop clock 1 fuel
                  (start (clock 0%nat) file can_write lines)).2) /\
  Forall (fun task =>
            strip (title task) = title task /\ title task <> "" /\
            strip (description task) = description task /\
            priority task ∈ valid_priorities)
    (tasks (manager (main_loop clock 1 fuel
                       (start (clock 0%nat) file can_write lines)).2)).
Proof.
  pose proof (main_loop_steps clock 1 fuel
                (start (clock 0%nat) file can_write lines)) as Hsteps.
  split; [exact Hsteps|].
  eapply Forall_impl.
  - eapply rtc_step_valid; [exact Hsteps|]. apply TaskManager_init_valid.
  - intros task Hv. by apply valid_task_spec.
Qed.

End Adding.

(** ** The command loop on examples *)

Lemma command_invalid_choice_witness :
  manager (command t1200 (at_console (holding [buy_milk]) ["9"; "5"])).2
    = holding [buy_milk] /\
  stdin (command t1200 (at_console (holding [buy_milk]) ["9"; "5"])).2 = ["5"].
Proof.
  destruct (command_invalid_choice t1200 (at_console (holding [buy_milk]) ["9"; "5"])
              "9" ["5"] eq_refl) as (_ & Hman & Hrest & _).
  - rewrite !not_elem_of_cons. split_and!; try done. apply not_elem_of_nil.
  - exact (conj Hman Hrest).
Defined.

Lemma command_exit_witness :
  main_loop (fun _ => t1200) 0 1 (at_console (holding [buy_milk]) [" 5 "; "1"])
  = (Left, (command t1200 (at_console (holding [buy_milk]) [" 5 "; "1"])).2) /\
  _running (manager (command t1200 (at_console (holding [buy_milk]) [" 5 "; "1"])).2)
  = false.
Proof.
  destruct (command_exit t1200 (at_console (holding [buy_milk]) [" 5 "; "1"])
              " 5 " ["1"] eq_refl eq_refl) as (_ & _ & Hrun & _ & Hloop).
  split; [exact (Hloop (fun _ => t1200) 0%nat 0%nat)|exact Hrun].
Defined.

Lemma command_nothing_to_change_witness :
  stdin (command t1200 (at_console (holding []) ["4"; "1"])).2 = ["1"] /\
  last (screen (command t1200 (at_console (holding []) ["4"; "1"])).2)
  = Some NoTasksToDelete.
Proof.
  destruct (command_nothing_to_change t1200 (at_console (holding []) ["4"; "1"])
              "4" ["1"] eq_refl eq_refl (or_intror eq_refl))
    as (_ & _ & Hrest & Hlast).
  exact (conj Hrest Hlast).
Defined.

Lemma main_loop_at_end_of_input_witness :
  (main_loop (fun _ => t1200) 0 3 (at_console (holding [buy_milk]) [])).1
  = Looping.
Proof.
  exact (f_equal fst (main_loop_at_end_of_input (fun _ => t1200) 0 3
           (at_console (holding [buy_milk]) []) eq_refl)).
Defined.

Lemma command_view_witness :
  omap header
    (screen (command t1200
               (at_console (holding [buy_milk; call_bank]) ["2"])).2)
  = [(1, "Buy milk"); (2, "Call the bank")].
Proof.
  exact (proj2 (proj2 (proj2 (command_view t1200
           (at_console (holding [buy_milk; call_bank]) ["2"]) "2" []
           eq_refl eq_refl)))).
Defined.

Lemma command_delete_by_number_witness :
  tasks (manager (command t1200
           (at_console (holding [buy_milk; call_bank]) ["4"; "2"])).2)
    = [buy_milk] /\
  manager (command t1200
             (at_console (holding [buy_milk; call_bank]) ["4"; "0"])).2
    = holding [buy_milk; call_bank].
Proof.
  split.
  - destruct (command_delete_by_number t1200
                (at_console (holding [buy_milk; call_bank]) ["4"; "2"])
                "4" "2" [] 2 eq_refl eq_refl) as (_ & _ & Hin & _);
      [done|reflexivity|].
    refine (proj1 (Hin _)). simpl. lia.
  - destruct (command_delete_by_number t1200
                (at_console (holding [buy_milk; call_bank]) ["4"; "0"])
                "4" "0" [] 0 eq_refl eq_refl) as (_ & _ & _ & Hout);
      [done|reflexivity|].
    refine (proj1 (Hout _)). simpl. lia.
Defined.

Lemma command_toggle_by_number_witness :
  tasks (manager (command t1200
           (at_console (holding [buy_milk; call_bank]) ["3"; "2"])).2)
    = [buy_milk; set_completed (PBool false) call_bank].
Proof.
  destruct (command_toggle_by_number t1200
              (at_console (holding [buy_milk; call_bank]) ["3"; "2"])
              "3" "2" [] 2 eq_refl eq_refl) as (_ & _ & Hin & _);
    [done|reflexivity|].
  refine (proj1 (Hin call_bank _ _)); [lia|reflexivity].
Defined.

Lemma command_not_a_number_witness :
  manager (command t1200
             (at_console (holding [buy_milk]) ["3"; "one"; "5"])).2
    = holding [buy_milk] /\
  stdin (command t1200
           (at_console (holding [buy_milk]) ["3"; "one"; "5"])).2 = ["5"].
Proof.
  destruct (command_not_a_number t1200
              (at_console (holding [buy_milk]) ["3"; "one"; "5"])
              "3" "one" ["5"] eq_refl (or_introl eq_refl))
    as (_ & Hman & Hrest & _); [done|reflexivity|].
  exact (conj Hman Hrest).
Defined.

Lemma get_task_input_dialogue_witness :
  (get_task_input t1200
     (at_console (holding [])
        [" "; " Walk dog "; "park"; ""; "LOW"; "n"; "5"])).1
  = Returns {| title := "Walk dog"; description := "park"; due_date := None;
               priority := "low"; reminder := false; reminder_time := None;
               completed := PBool false; created_at := t1200 |}.
Proof.
  refine (proj1 (get_task_input_dialogue t1200
            (at_console (holding [])
               [" "; " Walk dog "; "park"; ""; "LOW"; "n"; "5"])
            [" "] " Walk dog " "park" "" "LOW" "n" ["5"] eq_refl _ _ _ _ _)).
  - repeat constructor.
  - done.
  - reflexivity.
  - apply list_elem_of_further, list_elem_of_here.
  - done.
Defined.

Lemma command_add_task_witness :
  tasks (manager (command t1200
           (at_console (holding [buy_milk])
              ["1"; "Walk dog"; "park"; ""; ""; "n"])).2)
  = [buy_milk;
     {| title := "Walk dog"; description := "park"; due_date := None;
        priority := "medium"; reminder := false; reminder_time := None;
        completed := PBool false; created_at := t1200 |}].
Proof.
  refine (proj1 (proj2 (command_add_task t1200
            (at_console (holding [buy_milk])
               ["1"; "Walk dog"; "park"; ""; ""; "n"])
            "1" ["Walk dog"; "park"; ""; ""; "n"]
            {| title := "Walk dog"; description := "park"; due_date := None;
               priority := "medium"; reminder := false;
               reminder_time := None; completed := PBool false;
               created_at := t1200 |}
            (get_task_input t1200
               (after_choice
                  (at_console (holding [buy_milk])
                     ["1"; "Walk dog"; "park"; ""; ""; "n"])
                  ["Walk dog"; "park"; ""; ""; "n"])).2
            eq_refl eq_refl _))).
  reflexivity.
Defined.

Lemma command_add_abandoned_witness :
  manager (command t1200
             (at_console (holding [buy_milk]) ["1"; "Walk dog"])).2
  = holding [buy_milk].
Proof.
  refine (proj1 (proj2 (proj2 (command_add_abandoned t1200
            (at_console (holding [buy_milk]) ["1"; "Walk dog"])
            "1" ["Walk dog"] EOFError
            (get_task_input t1200
               (after_choice (at_console (holding [buy_milk]) ["1"; "Walk dog"])
                  ["Walk dog"])).2
            eq_refl eq_refl _)))).
  reflexivity.
Defined.
